(** * Provenance recording of viral-ngs commands: [util/_metadata/recording.py]

    A shallow embedding of the recording module and the properties of its
    interception of a command call: which steps are recorded, what the
    record holds, and what becomes of the outcome of the command.

    Python objects become inductive types, [os.environ] and argument
    namespaces become finite maps, and the code's effects (environment,
    file system, log, metadata store, exceptions) are threaded through a
    state-and-exception monad over an explicit [World].

    The interpreter is the one the module runs on, Python 3.7 to 3.9: the
    module reads [collections.Mapping], and a [StopIteration] raised inside
    a generator leaves it as a [RuntimeError]. *)

From Stdlib Require Import String Ascii ZArith Lia List.
From stdpp Require Import base gmap strings list fin_maps.

Local Open Scope Z_scope.
Set Warnings "-register-all".

(** ** Python strings and paths *)

Module Py.

(** [sep.join(parts)] *)
Fixpoint join (sep : string) (parts : list string) : string :=
  match parts with
  | [] => ""
  | [p] => p
  | p :: rest => p +:+ sep +:+ join sep rest
  end.

(** [s[n:]] *)
Fixpoint slice_from (n : nat) (s : string) : string :=
  match n, s with
  | O, _ => s
  | S _, EmptyString => ""
  | S n', String _ s' => slice_from n' s'
  end.

(** [s[:n]] *)
Fixpoint slice_to (n : nat) (s : string) : string :=
  match n, s with
  | O, _ => ""
  | S _, EmptyString => ""
  | S n', String c s' => String c (slice_to n' s')
  end.

(** [s.startswith(p)] *)
Definition startswith (p s : string) : bool := String.prefix p s.

Fixpoint lstrip (s : string) : string :=
  match s with
  | String c s' => if Ascii.is_space c then lstrip s' else s
  | EmptyString => ""
  end.

(** [s.strip()] *)
Definition strip (s : string) : string :=
  String.rev (lstrip (String.rev (lstrip s))).

(** [s.split()]: the words of [s] between runs of white space *)
Definition split (s : string) : list string := String.words s.

(** [s.split(c)] for a one-character separator, with the empty string
    giving no field. *)
Fixpoint split_on_go (c : ascii) (cur : string) (s : string) : list string :=
  match s with
  | EmptyString => [String.rev cur]
  | String a s' =>
      if Ascii.eqb a c then String.rev cur :: split_on_go c "" s'
      else split_on_go c (String a cur) s'
  end.

Definition split_on (c : ascii) (s : string) : list string :=
  match s with EmptyString => [] | _ => split_on_go c "" s end.

(** [os.path.basename] on a POSIX path: what follows the last slash. *)
Fixpoint basename_go (cur : string) (s : string) : string :=
  match s with
  | EmptyString => String.rev cur
  | String a s' =>
      if Ascii.eqb a "/"%char then basename_go "" s'
      else basename_go (String a cur) s'
  end.

Definition basename (p : string) : string := basename_go "" p.

Fixpoint endswith_slash (s : string) : bool :=
  match s with
  | EmptyString => false
  | String c EmptyString => Ascii.eqb c "/"%char
  | String _ s' => endswith_slash s'
  end.

(** [os.path.join(a, b)] on POSIX paths *)
Definition path_join (a b : string) : string :=
  if startswith "/" b then b
  else if orb (String.eqb a "") (endswith_slash a) then a +:+ b
  else a +:+ "/" +:+ b.

End Py.

(** ** Values *)

(** Direction of a file argument: [mode] is ['r'] for [InFile] and ['w']
    for [OutFile]. *)
Inductive Mode := In | Out.

(** Values Python treats as atoms. *)
Inductive Plain :=
| PNone
| PBool (b : bool)
| PInt (z : Z)
| PStr (s : string).

(** [FileArg(val, mode, compute_fnames)]: the raw argument value, whether it
    denotes input or output files, and how to get the file names from it. *)
Record FileArg := mkFileArg {
  val : Plain;
  mode : Mode;
  compute_fnames : Plain -> list string
}.

(** The value of one parsed command-line argument: the three cases
    [_replace_file_args] and [write_obj] tell apart by [isinstance], and
    everything else. *)
Inductive ArgVal :=
| AVal (p : Plain)
| AFileArg (f : FileArg)
| AList (l : list ArgVal)
| ATuple (l : list ArgVal).

(** What a command returns. *)
Inductive PyVal :=
| VNone
| VBool (b : bool)
| VInt (z : Z)
| VStr (s : string)
| VList (l : list PyVal)
| VDict (items : list (string * PyVal)).

(** Truth value of an object, as [if x:] and [not x] test it. *)
Definition truthy (v : PyVal) : bool :=
  match v with
  | VNone => false
  | VBool b => b
  | VInt z => negb (z =? 0)
  | VStr s => negb (String.eqb s "")
  | VList l => match l with [] => false | _ => true end
  | VDict d => match d with [] => false | _ => true end
  end.

Definition truthy_text (s : option string) : bool :=
  match s with
  | None => false
  | Some t => negb (String.eqb t "")
  end.

(** [d.get(key, default)] on a mapping value *)
Fixpoint dict_get (key : string) (items : list (string * PyVal)) (default : PyVal) : PyVal :=
  match items with
  | [] => default
  | (k, v) :: rest => if String.eqb k key then v else dict_get key rest default
  end.

(** ** Exceptions *)

(** The class of an exception, as far as the module and the interpreter
    tell classes apart: [KeyboardInterrupt], [SystemExit], another class
    that is not derived from [Exception], [StopIteration] or a class derived
    from it, and any other class derived from [Exception]. *)
Inductive ExcClass :=
| KeyboardInterrupt
| SystemExit
| OtherBaseException (name : string)
| StopIterationSubclass (name : string)
| ExceptionSubclass (name : string).

(** An exception object: its class, its message and its truth value
    ([bool(e)]), which is true unless the class defines [__bool__] or
    [__len__] to say otherwise. *)
Record Exc := mkExcObject { exc_class : ExcClass; exc_msg : string; exc_truth : bool }.

(** An exception object of a class that leaves the truth value alone. *)
Definition mkExc (c : ExcClass) (msg : string) : Exc := mkExcObject c msg true.

(** [isinstance(e, (KeyboardInterrupt, SystemExit))] *)
Definition is_interrupt_or_exit (e : Exc) : bool :=
  match exc_class e with
  | KeyboardInterrupt | SystemExit => true
  | _ => false
  end.

(** [isinstance(e, Exception)] *)
Definition is_Exception (e : Exc) : bool :=
  match exc_class e with
  | ExceptionSubclass _ | StopIterationSubclass _ => true
  | _ => false
  end.

(** [isinstance(e, StopIteration)] *)
Definition is_StopIteration (e : Exc) : bool :=
  match exc_class e with
  | StopIterationSubclass _ => true
  | _ => false
  end.

Definition class_name (c : ExcClass) : string :=
  match c with
  | KeyboardInterrupt => "KeyboardInterrupt"
  | SystemExit => "SystemExit"
  | OtherBaseException n => n
  | StopIterationSubclass n => n
  | ExceptionSubclass n => n
  end.

Inductive Result (A : Type) :=
| Ok (a : A)
| Raise (e : Exc).
Arguments Ok {A} a.
Arguments Raise {A} e.

(** ** The world the module runs in *)

(** A file on disk. *)
Record FileData := mkFileData { content : string; mtime : Z }.

(** [FileInfo], as gathered for one file name. *)
Record FileInfo := mkFileInfo {
  fname : string;
  file_exists : bool;
  hash : option string;
  size : option nat;
  file_mtime : option Z
}.

(** Serialised argument values: what [write_obj] and the JSON encoder leave
    of an [ArgVal]. *)
Inductive Ser :=
| SPlain (p : Plain)
| SStr (s : string)
| SFileInfo (infos : list FileInfo)
| SList (l : list Ser).

Record VersionInfo := mkVersionInfo {
  viral_ngs_version : string;
  viral_ngs_path : string;
  viral_ngs_path_real : string;
  code_hash : string
}.

Record RunEnv := mkRunEnv {
  run_env_metadata_dir : string;
  platform : string;
  cpus : Z;
  host : string;
  run_env_user : string;
  run_env_cwd : string;
  conda_env : string;
  got_detailed_env : bool;
  env_vars : gmap string string
}.

Record RunInfo := mkRunInfo {
  beg_time : Z;
  end_time : Z;
  duration : Z;
  exception : option string;
  run_info_argv : list string
}.

(** The value of [step_data['step']], over the type [V] of argument values:
    [ArgVal] while the record is assembled, [Ser] once it is stored. *)
Record Step (V : Type) := mkStep {
  step_id : string;
  run_id : string;
  cmd_module : string;
  cmd_name : V;
  version_info : VersionInfo;
  run_env : RunEnv;
  run_info : RunInfo;
  args : gmap string V;
  metadata_from_cmd_line : gmap string string;
  metadata_from_cmd_return : PyVal;
  enclosing_steps : list string
}.
Arguments mkStep {V}.
Arguments step_id {V}.
Arguments run_id {V}.
Arguments cmd_module {V}.
Arguments cmd_name {V}.
Arguments version_info {V}.
Arguments run_env {V}.
Arguments run_info {V}.
Arguments args {V}.
Arguments metadata_from_cmd_line {V}.
Arguments metadata_from_cmd_return {V}.
Arguments enclosing_steps {V}.

(** [step_data]: the dictionary with keys [__viral_ngs_metadata__], [format]
    and, once assembled, [step]. *)
Record StepData (V : Type) := mkStepData {
  viral_ngs_metadata : bool;
  format : string;
  step : option (Step V)
}.
Arguments mkStepData {V}.
Arguments viral_ngs_metadata {V}.
Arguments format {V}.
Arguments step {V}.

Inductive LogEntry :=
| LogInfoFinished (cmd_module cmd_name : string) (seconds : Z) (exception_text : option string)
| LogInfoRecordingTook (seconds : Z)
| LogWarning (e : Exc).

(** Everything outside the interpreter that the module reads or writes.
    Times are clock readings in whole ticks. *)
Record World := mkWorld {
  environ : gmap string string;            (* os.environ *)
  cwd : string;                            (* os.getcwd() *)
  user : string;                           (* getpass.getuser() *)
  argv : list string;                      (* sys.argv *)
  now : Z;                                 (* time.time() *)
  strftime_local : Z -> string;            (* time.strftime('%Y%m%d%H%M%S', time.localtime(t)) *)
  uuid_stream : nat -> string;             (* the successive values of uuid.uuid4() *)
  uuid_next : nat;
  py_str : ArgVal -> string;               (* str(x) *)
  files : gmap string FileData;            (* regular files *)
  dirs : gset string;                      (* directories *)
  realpath : string -> string;             (* os.path.realpath *)
  shell : string -> Result string;         (* _shell_cmd(cmd) *)
  sys_platform : string;                   (* platform.platform() *)
  fqdn : string;                           (* socket.getfqdn() *)
  cpu_count : Result Z;                    (* util.misc.available_cpu_count() *)
  project_path : string;                   (* util.version.get_project_path() *)
  version : Result string;                 (* util.version.get_version() *)
  digest : string -> string;               (* Hasher: content to hash sum *)
  result_fnames : FileArg -> PyVal -> list string;
                                           (* output file names a command result adds *)
  metadata_dir : string;                   (* metadata_db.metadata_dir() *)
  tracking_enabled : bool;                 (* metadata_db.is_metadata_tracking_enabled() *)
  store_fault : option Exc;                (* the error the store raises on a write, if any *)
  write_fault : string -> option Exc;      (* the error opening a path for writing raises, if any *)
  db : list (StepData Ser);                (* the step records stored so far *)
  log : list LogEntry                      (* _log *)
}.

Definition set_environ (f : gmap string string -> gmap string string) (w : World) : World :=
  mkWorld (f (environ w)) (cwd w) (user w) (argv w) (now w) (strftime_local w)
    (uuid_stream w) (uuid_next w) (py_str w) (files w) (dirs w) (realpath w) (shell w)
    (sys_platform w) (fqdn w) (cpu_count w) (project_path w) (version w) (digest w)
    (result_fnames w) (metadata_dir w) (tracking_enabled w) (store_fault w) (write_fault w) (db w) (log w).

Definition set_cwd (d : string) (w : World) : World :=
  mkWorld (environ w) d (user w) (argv w) (now w) (strftime_local w)
    (uuid_stream w) (uuid_next w) (py_str w) (files w) (dirs w) (realpath w) (shell w)
    (sys_platform w) (fqdn w) (cpu_count w) (project_path w) (version w) (digest w)
    (result_fnames w) (metadata_dir w) (tracking_enabled w) (store_fault w) (write_fault w) (db w) (log w).

Definition set_uuid_next (n : nat) (w : World) : World :=
  mkWorld (environ w) (cwd w) (user w) (argv w) (now w) (strftime_local w)
    (uuid_stream w) n (py_str w) (files w) (dirs w) (realpath w) (shell w)
    (sys_platform w) (fqdn w) (cpu_count w) (project_path w) (version w) (digest w)
    (result_fnames w) (metadata_dir w) (tracking_enabled w) (store_fault w) (write_fault w) (db w) (log w).

Definition set_files (f : gmap string FileData) (w : World) : World :=
  mkWorld (environ w) (cwd w) (user w) (argv w) (now w) (strftime_local w)
    (uuid_stream w) (uuid_next w) (py_str w) f (dirs w) (realpath w) (shell w)
    (sys_platform w) (fqdn w) (cpu_count w) (project_path w) (version w) (digest w)
    (result_fnames w) (metadata_dir w) (tracking_enabled w) (store_fault w) (write_fault w) (db w) (log w).

Definition set_db (d : list (StepData Ser)) (w : World) : World :=
  mkWorld (environ w) (cwd w) (user w) (argv w) (now w) (strftime_local w)
    (uuid_stream w) (uuid_next w) (py_str w) (files w) (dirs w) (realpath w) (shell w)
    (sys_platform w) (fqdn w) (cpu_count w) (project_path w) (version w) (digest w)
    (result_fnames w) (metadata_dir w) (tracking_enabled w) (store_fault w) (write_fault w) d (log w).

Definition set_log (l : list LogEntry) (w : World) : World :=
  mkWorld (environ w) (cwd w) (user w) (argv w) (now w) (strftime_local w)
    (uuid_stream w) (uuid_next w) (py_str w) (files w) (dirs w) (realpath w) (shell w)
    (sys_platform w) (fqdn w) (cpu_count w) (project_path w) (version w) (digest w)
    (result_fnames w) (metadata_dir w) (tracking_enabled w) (store_fault w) (write_fault w) (db w) l.

(** ** Computations: state passing with exceptions

    A raised exception keeps the world as it was when it was raised: nothing
    is rolled back. *)

Definition M (A : Type) : Type := World -> Result A * World.

Definition ret {A} (a : A) : M A := fun w => (Ok a, w).

Definition bind {A B} (m : M A) (k : A -> M B) : M B :=
  fun w =>
    match m w with
    | (Ok a, w') => k a w'
    | (Raise e, w') => (Raise e, w')
    end.

Definition raise {A} (e : Exc) : M A := fun w => (Raise e, w).

Definition lift {A} (r : Result A) : M A := fun w => (r, w).

Definition gets {A} (f : World -> A) : M A := fun w => (Ok (f w), w).

Definition modify (f : World -> World) : M unit := fun w => (Ok tt, f w).

Declare Scope py_scope.
Delimit Scope py_scope with py.
Notation "x <- c1 ;; c2" := (bind c1 (fun x => c2))
  (at level 100, c1 at next level, c2 at level 200, right associativity) : py_scope.
Notation "c1 ;; c2" := (bind c1 (fun _ => c2))
  (at level 100, c2 at level 200, right associativity) : py_scope.
Local Open Scope py_scope.

(** Running [f] on the elements of a list in turn. *)
Definition mapM {A B} (f : A -> M B) : list A -> M (list B) :=
  fix go (l : list A) : M (list B) :=
    match l with
    | [] => ret []
    | x :: rest =>
        y <- f x ;;
        ys <- go rest ;;
        ret (y :: ys)
    end.

(** [if cond: body] *)
Definition when (cond : bool) (body : M unit) : M unit :=
  if cond then body else ret tt.

Definition log_entry (e : LogEntry) : M unit :=
  modify (fun w => set_log (log w ++ [e]) w).

(** [time.time()] *)
Definition time_time : M Z := gets now.

(** [uuid.uuid4()], as text *)
Definition uuid4 : M string :=
  fun w => (Ok (uuid_stream w (uuid_next w)), set_uuid_next (S (uuid_next w)) w).

(** [os.path.isfile], [os.path.isdir] *)
Definition isfile (p : string) : M bool := gets (fun w => bool_decide (is_Some (files w !! p))).
Definition isdir (p : string) : M bool := gets (fun w => bool_decide (p ∈ dirs w)).

Definition IOError (p : string) : Exc := mkExc (ExceptionSubclass "IOError") p.
Definition IndexError : Exc := mkExc (ExceptionSubclass "IndexError") "list index out of range".
Definition NameError (name : string) : Exc := mkExc (ExceptionSubclass "NameError") name.
Definition KeyError (key : string) : Exc := mkExc (ExceptionSubclass "KeyError") key.
Definition IsADirectoryError (p : string) : Exc := mkExc (ExceptionSubclass "IsADirectoryError") p.
Definition RuntimeError (msg : string) : Exc := mkExc (ExceptionSubclass "RuntimeError") msg.

(** [util.file.slurp_file]: the content of a file, or an error when there is
    no such file. *)
Definition slurp_file (p : string) : M string :=
  fun w =>
    match files w !! p with
    | Some fd => (Ok (content fd), w)
    | None => (Raise (IOError p), w)
    end.

(** [_shell_cmd(cmd)] *)
Definition _shell_cmd (cmd : string) : M string := fun w => (shell w cmd, w).

(** [l[i]] *)
Definition index {A} (l : list A) (i : nat) : M A :=
  match l !! i with
  | Some x => ret x
  | None => raise IndexError
  end.

(** ** Helpers of the repository that the module imports *)

(** Modelled from the spec: [errors_as_warnings] (util/_metadata/md_utils.py)
    is not among the sources. The spec says of what runs under it that any
    exception raised is caught and logged as a warning, never surfaced to
    the caller. The body is given as the assignments it makes to its local
    variables, so that an assignment completed before the error keeps its
    effect, as in Python. *)
Fixpoint run_statements {S} (stmts : list (S -> M S)) (s : S) : World -> (S * option Exc) * World :=
  fun w =>
    match stmts with
    | [] => ((s, None), w)
    | stmt :: rest =>
        match stmt s w with
        | (Ok s', w') => run_statements rest s' w'
        | (Raise e, w') => ((s, Some e), w')
        end
    end.

Definition errors_as_warnings_locals {S} (stmts : list (S -> M S)) (s : S) : M S :=
  fun w =>
    match run_statements stmts s w with
    | ((s', None), w') => (Ok s', w')
    | ((s', Some e), w') => (Ok s', set_log (log w' ++ [LogWarning e]) w')
    end.

(** [with errors_as_warnings(): body] for a body that assigns no variable
    used afterwards. *)
Definition errors_as_warnings (body : M unit) : M unit :=
  errors_as_warnings_locals [fun _ => body] tt.

(** Modelled from the spec: [util.file.string_to_file_name] is not among the
    sources. The spec says the identifier is transliterated to a
    filesystem-safe character set; here letters, digits, underscore, hyphen
    and period are kept and every other character becomes an underscore. *)
Definition fs_safe_char (c : ascii) : bool :=
  let n := nat_of_ascii c in
  ((48 <=? n) && (n <=? 57) || (65 <=? n) && (n <=? 90) || (97 <=? n) && (n <=? 122)
   || (n =? 95) || (n =? 45) || (n =? 46))%nat.

Fixpoint string_to_file_name (s : string) : string :=
  match s with
  | EmptyString => ""
  | String c s' =>
      String (if fs_safe_char c then c else "_"%char) (string_to_file_name s')
  end.

Fixpoint fs_safe (s : string) : bool :=
  match s with
  | EmptyString => true
  | String c s' => fs_safe_char c && fs_safe s'
  end.

(** Modelled from the spec: [util.file.pushd_popd] is not among the sources
    and the spec does not describe it; it is taken to run its body in the
    given directory and to come back on every exit. *)
Definition pushd_popd {A} (d : string) (body : M A) : M A :=
  fun w =>
    let old := cwd w in
    match body (set_cwd d w) with
    | (r, w') => (r, set_cwd old w')
    end.

(** Modelled from the spec: [util.file.dump_file] is not among the sources;
    it is taken to write the text to the named file. The spec says that this
    write can fail: a directory cannot be opened for writing, and the world
    tells which other paths cannot and with what error. A write that fails
    leaves the files as they are. *)
Definition open_error (w : World) (p : string) : option Exc :=
  if bool_decide (p ∈ dirs w) then Some (IsADirectoryError p) else write_fault w p.

Definition dump_file (p text : string) : M unit :=
  fun w =>
    match open_error w p with
    | Some e => (Raise e, w)
    | None => (Ok tt, set_files (<[p := mkFileData text (now w)]> (files w)) w)
    end.

(** Modelled from the spec: [_shell_cmd] (util/_metadata/md_utils.py) is not
    among the sources; with [check=False] a failing command is taken to
    give no output instead of an error. *)
Definition _shell_cmd_unchecked (cmd : string) : M string :=
  fun w =>
    match shell w cmd with
    | Ok out => (Ok out, w)
    | Raise _ => (Ok "", w)
    end.

(** Modelled from the spec: [util.misc.tmp_set_env] is not among the sources.
    The spec's nested-call guard reads the current sequence of step ids
    from the environment channel (a delimiter-joined string) and returns it,
    lets the scope see the sequence with the new id appended, and restores
    the previous value on every exit. *)
Definition tmp_set_env {A} (var value : string) (sep : ascii)
    (body : list string -> M A) : M A :=
  fun w =>
    let old := environ w !! var in
    let enclosing := match old with Some s => Py.split_on sep s | None => [] end in
    let appended :=
      match old with
      | Some (String c s) => String c s +:+ String sep "" +:+ value
      | _ => value
      end in
    match body enclosing (set_environ (insert var appended) w) with
    | (r, w') =>
        (r, set_environ (match old with
                         | Some s => insert var s
                         | None => delete var
                         end) w')
    end.

(** Modelled from the spec: [metadata_db.is_metadata_tracking_enabled] is not
    among the sources; it tells whether tracking is enabled for the
    process. *)
Definition is_metadata_tracking_enabled : M bool := gets tracking_enabled.

(** Modelled from the spec: [util.misc.dict_subset] is not among the sources;
    the listed variables are copied if present. *)
Definition dict_subset (d : gmap string string) (keys : list string) : gmap string string :=
  filter (fun kv => kv.1 ∈ keys) d.

(** ** Handling file arguments *)

(** [cmd_handle_file_arg(val, mode, compute_fnames)] *)
Definition cmd_handle_file_arg (v : Plain) (m : Mode) (names : Plain -> list string) : FileArg :=
  mkFileArg v m names.

(** ** run_id management *)

Definition VIRAL_NGS_METADATA_FORMAT : string := "1.0.0".

(** [create_run_id(t)]: with [t=None], [time.localtime] takes the current
    time. *)
Definition create_run_id (t : option Z) : M string :=
  stamp <- gets (fun w => strftime_local w (match t with Some t' => t' | None => now w end)) ;;
  u <- gets user ;;
  d <- gets cwd ;;
  id <- uuid4 ;;
  ret (Py.slice_to 210
         (string_to_file_name
            (Py.join "__" [Py.slice_from 2 stamp; u; Py.basename d; id]))).

Definition set_run_id : M unit :=
  rid <- create_run_id None ;;
  modify (set_environ (insert "VIRAL_NGS_METADATA_RUN_ID" rid)).

(** ** Getting the execution environment *)

(** [save_dirty_repo(code_hash, tag, push_to)]. The last command line is
    built from the name [tagb], which the module never binds: evaluating it
    raises [NameError]. *)
Definition save_dirty_repo (code_hash tag : string) (push_to : option string) : M string :=
  root <- gets project_path ;;
  pushd_popd root
    (stash_hash <- _shell_cmd_unchecked "git stash create" ;;
     if truthy (VStr stash_hash) then
       let code_hash := stash_hash in
       if truthy (VStr tag) then
         _shell_cmd_unchecked ("git tag " +:+ tag +:+ " " +:+ code_hash) ;;
         if truthy_text push_to then raise (NameError "tagb")
         else ret code_hash
       else ret code_hash
     else ret code_hash).

(** The two statements under [errors_as_warnings] in [tag_code_version],
    each as the value it leaves in [code_hash]. *)
Definition read_head_hash (code_hash : string) : M string :=
  root <- gets project_path ;;
  let git_dir := Py.path_join root ".git" in
  let git_head_fname := Py.path_join git_dir "HEAD" in
  head_is_file <- isfile git_head_fname ;;
  if head_is_file then
    head <- slurp_file git_head_fname ;;
    let head_branch := Py.strip head in
    if Py.startswith "ref:" head_branch then
      ref <- index (Py.split head_branch) 1 ;;
      h <- slurp_file (Py.path_join git_dir ref) ;;
      ret (Py.strip h)
    else ret code_hash
  else ret code_hash.

Definition tag_if_detailed (tag : string) (push_to : option string) (code_hash : string) : M string :=
  detailed <- gets (fun w => bool_decide (is_Some (environ w !! "VIRAL_NGS_METADATA_DETAILED_ENV"))) ;;
  if detailed then save_dirty_repo code_hash tag push_to
  else ret code_hash.

Definition tag_code_version (tag : string) (push_to : option string) : M string :=
  let code_hash := "" in
  errors_as_warnings_locals [read_head_hash; tag_if_detailed tag push_to] code_hash.

Definition get_conda_env : M string :=
  detailed <- gets (fun w => bool_decide (is_Some (environ w !! "VIRAL_NGS_METADATA_DETAILED_ENV"))) ;;
  if negb detailed then ret ""
  else _shell_cmd "conda env export".

Definition gather_version_info (step_id : string) : M VersionInfo :=
  md_dir <- gets metadata_dir ;;
  let code_repo := Py.path_join md_dir "code_repo" in
  repo_is_dir <- isdir code_repo ;;
  code_hash <- tag_code_version ("cmd_" +:+ step_id)
                 (if repo_is_dir then Some code_repo else None) ;;
  v <- (fun w => (version w, w)) ;;
  p <- gets project_path ;;
  p_real <- gets (fun w => realpath w (project_path w)) ;;
  ret (mkVersionInfo v p p_real code_hash).

Definition env_vars_to_save : list string :=
  ["DX_JOB_ID"; "DX_PROJECT_CONTEXT_ID"; "TRAVIS_BUILD_ID"; "TRAVIS_JOB_ID"; "TRAVIS_COMMIT"].

Definition gather_run_env : M RunEnv :=
  pl <- gets sys_platform ;;
  n <- (fun w => (cpu_count w, w)) ;;
  h <- gets fqdn ;;
  u <- gets user ;;
  d <- gets cwd ;;
  conda <- get_conda_env ;;
  detailed <- gets (fun w => bool_decide (is_Some (environ w !! "VIRAL_NGS_METADATA_DETAILED_ENV"))) ;;
  vars <- gets (fun w => dict_subset (environ w) env_vars_to_save) ;;
  ret (mkRunEnv "" pl n h u d conda detailed vars).

Definition gather_run_info (beg_time end_time : Z) (cmd_exception_str : option string) : M RunInfo :=
  a <- gets argv ;;
  ret (mkRunInfo beg_time end_time (end_time - beg_time) cmd_exception_str a).

(** ** Arguments *)

(** The attributes of the parsed arguments, [vars(args)]: [metadata], typed
    as the [--metadata] option that [add_metadata_arg] declares fills it
    ([nargs=2], [action='append']: absent, or the attribute and value pairs
    in the order given), and the other attributes by name. *)
Record Namespace := mkNamespace {
  metadata : option (list (string * string));
  named : gmap string ArgVal
}.

(** The attributes other than [metadata]. A namespace has one attribute of
    a name: [metadata] is the field of that name, and an entry of the map
    under that name is no attribute. So popping [metadata] takes the field
    away and leaves these as they are. *)
Definition attrs (args : Namespace) : gmap string ArgVal :=
  delete "metadata" (named args).

Fixpoint _replace_file_args (v : ArgVal) : ArgVal :=
  match v with
  | AFileArg f => AVal (val f)
  | AList l => AList (map _replace_file_args l)
  | ATuple l => AList (map _replace_file_args l)
  | AVal p => AVal p
  end.

(** [replace_file_args(args)]. The value of [metadata] holds strings only,
    which the replacement leaves as they are. *)
Definition replace_file_args (args : Namespace) : Namespace :=
  mkNamespace (metadata args) (_replace_file_args <$> attrs args).

(** [isinstance(x, FileArg)] somewhere in a value *)
Fixpoint has_file_arg (v : ArgVal) : bool :=
  match v with
  | AFileArg _ => true
  | AList l => existsb has_file_arg l
  | ATuple l => existsb has_file_arg l
  | AVal _ => false
  end.

(** ** Writing the record *)

(** Modelled from the spec: [FileArg.gather_file_info]
    (util/_metadata/file_arg.py) and [Hasher] are not among the sources. The
    spec: for each resolved path, if the direction is IN, or it is OUT and
    [out_files_exist] is true, hash and stat the path, otherwise mark it
    absent; a path that is not found is recorded as not existing and is no
    error; the command result may add output paths, merged into the
    result. *)
Definition absent_file (path : string) : FileInfo :=
  mkFileInfo path false None None None.

Definition hash_and_stat (w : World) (path : string) : FileInfo :=
  match files w !! path with
  | Some fd =>
      mkFileInfo path true (Some (digest w (content fd)))
                 (Some (String.length (content fd))) (Some (mtime fd))
  | None => absent_file path
  end.

Definition resolve (w : World) (f : FileArg) (cmd_result : PyVal) : list string :=
  compute_fnames f (val f) ++ result_fnames w f cmd_result.

Definition gather_file_info (f : FileArg) (out_files_exist : bool) (cmd_result : PyVal)
  : M (list FileInfo) :=
  gets (fun w =>
          map (fun path =>
                 match mode f with
                 | In => hash_and_stat w path
                 | Out => if out_files_exist then hash_and_stat w path
                          else absent_file path
                 end)
              (resolve w f cmd_result)).

(** [write_obj(x)] of [record_step_to_db], over the [step_data] and
    [cmd_result] it closes over. *)
Definition write_obj (step_data : StepData ArgVal) (cmd_result : PyVal) (x : ArgVal) : M Ser :=
  match x with
  | AFileArg f =>
      st <- match step step_data with
            | Some st => ret st
            | None => raise (KeyError "step")
            end ;;
      file_info <- gather_file_info f (negb (truthy_text (exception (run_info st)))) cmd_result ;;
      ret (SFileInfo file_info)
  | _ => s <- gets (fun w => py_str w x) ;; ret (SStr s)
  end.

(** Modelled from the spec: [metadata_db.store_step_record] is not among the
    sources. The spec: it appends the record to the store, converting any
    embedded value derived from a file argument by the serialiser it is
    given; plain values and ordered containers are written as they are.
    A store that cannot be written raises. *)
Fixpoint encode (serializer : ArgVal -> M Ser) (v : ArgVal) : M Ser :=
  match v with
  | AVal p => ret (SPlain p)
  | AFileArg f => serializer (AFileArg f)
  | AList l => l' <- mapM (encode serializer) l ;; ret (SList l')
  | ATuple l => l' <- mapM (encode serializer) l ;; ret (SList l')
  end.

Fixpoint encode_items (serializer : ArgVal -> M Ser) (items : list (string * ArgVal))
  : M (list (string * Ser)) :=
  match items with
  | [] => ret []
  | (k, v) :: rest =>
      y <- encode serializer v ;;
      ys <- encode_items serializer rest ;;
      ret ((k, y) :: ys)
  end.

Definition encode_step (serializer : ArgVal -> M Ser) (st : Step ArgVal) : M (Step Ser) :=
  name <- encode serializer (cmd_name st) ;;
  items <- encode_items serializer (map_to_list (args st)) ;;
  ret (mkStep (step_id st) (run_id st) (cmd_module st) name (version_info st)
              (run_env st) (run_info st) (list_to_map items)
              (metadata_from_cmd_line st) (metadata_from_cmd_return st) (enclosing_steps st)).

Definition store_step_record (step_data : StepData ArgVal) (serializer : ArgVal -> M Ser) : M unit :=
  st <- match step step_data with
        | Some st => st' <- encode_step serializer st ;; ret (Some st')
        | None => ret None
        end ;;
  fault <- gets store_fault ;;
  match fault with
  | Some e => raise e
  | None =>
      modify (fun w =>
                set_db (db w ++ [mkStepData (viral_ngs_metadata step_data) (format step_data) st]) w)
  end.

Definition record_step_to_db (step_data : StepData ArgVal) (cmd_result : PyVal) : M unit :=
  store_step_record step_data (write_obj step_data cmd_result).

(** ** User metadata *)

Definition METADATA_VALUE_PREFIX : string := "VIRAL_NGS_METADATA_VALUE_".

(** The comprehension over [os.environ.items()]: every variable whose name
    starts with the prefix, under the rest of its name. *)
Definition metadata_from_environ (env : gmap string string) : gmap string string :=
  map_fold (fun k v acc =>
              if Py.startswith METADATA_VALUE_PREFIX k
              then <[Py.slice_from (String.length METADATA_VALUE_PREFIX) k := v]> acc
              else acc)
           ∅ env.

(** [dict(pairs)]: a later pair replaces an earlier one with the same key. *)
Definition dict_of_pairs (pairs : list (string * string)) : gmap string string :=
  foldl (fun d kv => <[kv.1 := kv.2]> d) ∅ pairs.

(** [d.update(other)] *)
Definition dict_update (d other : gmap string string) : gmap string string :=
  other ∪ d.

(** [gather_user_metadata(args_dict, cmd_result)]; the third component is
    [args_dict] after the [pop]. *)
Definition gather_user_metadata (args_dict : Namespace) (cmd_result : PyVal)
  : M (gmap string string * PyVal * Namespace) :=
  env <- gets environ ;;
  let metadata_from_cmd_line := metadata_from_environ env in
  let popped := metadata args_dict in
  let args_dict := mkNamespace None (attrs args_dict) in
  let metadata_from_cmd_line :=
    dict_update metadata_from_cmd_line
                (dict_of_pairs (match popped with Some (p :: ps) => p :: ps | _ => [] end)) in
  let metadata_from_cmd_return :=
    match cmd_result with
    | VDict items => dict_get "__metadata__" items (VDict [])
    | _ => VDict []
    end in
  ret (metadata_from_cmd_line, metadata_from_cmd_return, args_dict).

(** ** Intercepting a command call *)

(** What the plugin manager hands a hook wrapper for the call it wraps: the
    list of the results of the hook implementations, or the exception one of
    them raised. *)
Definition Outcome : Type := Result (list PyVal).

(** [outcome.get_result()] *)
Definition get_result (outcome : Outcome) : M (list PyVal) := lift outcome.

Definition newline : string := String "010"%char "".

(** [traceback.format_exc()] for the exception being handled, without the
    stack frames. *)
Definition format_exc (e : Exc) : string :=
  "Traceback (most recent call last):" +:+ newline
    +:+ class_name (exc_class e) +:+ ": " +:+ exc_msg e +:+ newline.

(** What leaves a generator when [e] is raised in it and nothing there
    handles it: a [StopIteration] becomes a [RuntimeError], any other
    exception leaves as it is. *)
Definition raised_in_generator (e : Exc) : Exc :=
  if is_StopIteration e then RuntimeError "generator raised StopIteration" else e.

(** The body of a generator function, as to what it raises. *)
Definition generator {A} (body : M A) : M A :=
  fun w =>
    match body w with
    | (Ok a, w') => (Ok a, w')
    | (Raise e, w') => (Raise (raised_in_generator e), w')
    end.

(** [with unpack_outcome(outcome) as (cmd_result, cmd_exception,
    cmd_exception_str): body]. The function is a generator that
    [contextlib.contextmanager] drives. What it raises before the [yield]
    (an interrupt, an exit, or another exception that is no [Exception], so
    never a [StopIteration]) leaves the [with] statement before the body is
    run. An exception of the body is thrown in at the [yield], which nothing
    there handles, and leaves the statement as it is. Once the body is done
    the rest of the generator runs: a captured exception that is true is
    raised again, inside the generator; one that is false is not. *)
Definition unpack_outcome (outcome : Outcome)
    (body : PyVal * option Exc * option string -> M unit) : M unit :=
  match outcome with
  | Ok results =>
      let cmd_result :=
        match results with
        | first :: _ => first
        | [] => VList []
        end in
      body (cmd_result, None, None)
  | Raise e =>
      if is_interrupt_or_exit e then raise e
      else if is_Exception e then
        body (VNone, Some e, Some (format_exc e)) ;;
        if exc_truth e then raise (raised_in_generator e) else ret tt
      else raise e
  end.

(** The command behind the hook: the module its source file belongs to and
    the name of the function that implements it. *)
Record CmdMain := mkCmdMain {
  main_module : string;
  main_name : string
}.

(** [str(x)]; the text of a string is the string. *)
Definition str_of (w : World) (x : ArgVal) : string :=
  match x with
  | AVal (PStr s) => s
  | _ => py_str w x
  end.

Definition is_empty {A} (l : list A) : bool :=
  match l with [] => true | _ => false end.

(** The part of [cmd_call_cmd] that runs when tracking is enabled and no step
    encloses this one. *)
Definition record_step (step_data : StepData ArgVal) (args_dict : Namespace)
    (cmd_module : string) (cmd_name : ArgVal) (step_id run_id : string) (beg_time : Z)
    (enclosing_steps : list string)
    (cmd_result : PyVal) (cmd_exception_str : option string) : M unit :=
  end_time <- time_time ;;
  name_text <- gets (fun w => str_of w cmd_name) ;;
  log_entry (LogInfoFinished cmd_module name_text (end_time - beg_time) cmd_exception_str) ;;
  user_metadata <- gather_user_metadata args_dict cmd_result ;;
  let '(metadata_from_cmd_line, metadata_from_cmd_return, args_dict) := user_metadata in
  let args_dict := mkNamespace (metadata args_dict) (delete "func_main" (attrs args_dict)) in
  version_info <- gather_version_info step_id ;;
  run_env <- gather_run_env ;;
  run_info <- gather_run_info beg_time end_time cmd_exception_str ;;
  let step_data :=
    mkStepData (viral_ngs_metadata step_data) (format step_data)
      (Some (mkStep step_id run_id cmd_module cmd_name version_info run_env run_info
                    (attrs args_dict) metadata_from_cmd_line metadata_from_cmd_return
                    enclosing_steps)) in
  record_step_to_db step_data cmd_result ;;
  finished <- time_time ;;
  log_entry (LogInfoRecordingTook (finished - end_time)).

(** [cmd_call_cmd(cmd_main, args, config)], a hook wrapper, and as such a
    generator: [yield_] stands for the [yield], which runs the wrapped
    command on the arguments as the wrapper left them and comes back with
    its outcome. The outcome is given back so that the caller of the hook
    can deliver it. [vars(args).copy()] holds the attributes as they are on
    entry. *)
Definition cmd_call_cmd (cmd_main : CmdMain) (args : Namespace)
    (yield_ : Namespace -> M Outcome) : M Outcome :=
  generator (
  let args_dict := args in
  let step_data := mkStepData true VIRAL_NGS_METADATA_FORMAT None in
  let cmd_module := main_module cmd_main in
  let cmd_name :=
    match attrs args_dict !! "command" with
    | Some v => v
    | None => AVal (PStr (main_name cmd_main))
    end in
  beg_time <- time_time ;;
  fresh_run_id <- create_run_id (Some beg_time) ;;
  run_id <- gets (fun w => default fresh_run_id (environ w !! "VIRAL_NGS_METADATA_RUN_ID")) ;;
  stamp_id <- create_run_id (Some beg_time) ;;
  name_text <- gets (fun w => str_of w cmd_name) ;;
  let step_id := Py.join "__" [stamp_id; cmd_module; name_text] in
  errors_as_warnings
    (target <- gets (fun w => environ w !! "VIRAL_NGS_METADATA_SAVE_STEP_ID_TO") ;;
     match target with
     | Some path => dump_file path step_id
     | None => ret tt
     end) ;;
  let args := replace_file_args args in
  tmp_set_env "VIRAL_NGS_METADATA_STEPS_RUNNING" step_id ":"%char
    (fun enclosing_steps =>
       outcome <- yield_ args ;;
       unpack_outcome outcome
         (fun '(cmd_result, cmd_exception, cmd_exception_str) =>
            errors_as_warnings
              (enabled <- is_metadata_tracking_enabled ;;
               when (enabled && is_empty enclosing_steps)
                    (record_step step_data args_dict cmd_module cmd_name step_id run_id
                                 beg_time enclosing_steps cmd_result cmd_exception_str))) ;;
       ret outcome)).

(** The plugin manager's side of the call: the command runs with whatever it
    raises captured in the outcome, and once the wrapper has finished the
    outcome is delivered to the caller ([get_result] raises the exception
    the outcome holds); an exception leaving the wrapper reaches the caller
    instead. *)
Definition from_call (command : Namespace -> M (list PyVal)) (args : Namespace) : M Outcome :=
  fun w => match command args w with (r, w') => (Ok r, w') end.

Definition call_cmd (cmd_main : CmdMain) (command : Namespace -> M (list PyVal))
    (args : Namespace) : M (list PyVal) :=
  outcome <- cmd_call_cmd cmd_main args (from_call command) ;;
  get_result outcome.

(** * Notions the properties are stated with *)

(** ** Dictionaries *)

(** The value the last pair with key [k] gives, if there is one. *)
Fixpoint last_value (k : string) (pairs : list (string * string)) : option string :=
  match pairs with
  | [] => None
  | (k', v) :: rest =>
      match last_value k rest with
      | Some v' => Some v'
      | None => if String.eqb k' k then Some v else None
      end
  end.

(** ** What recording leaves alone *)

(** Two worlds with the same stored records, the same files and the same
    way of hashing and of naming the files of a result. *)
Definition same_store (w' w : World) : Prop :=
  db w' = db w /\ files w' = files w /\ digest w' = digest w /\
  result_fnames w' = result_fnames w.

(** A computation that leaves all of these as they are, whatever it returns
    or raises. *)
Definition keeps_db {A} (m : M A) : Prop := forall w, same_store (m w).2 w.

(** ** The stored form of a step *)

(** The file information [gather_file_info] gives for a file argument. *)
Definition file_infos (w : World) (f : FileArg) (out_files_exist : bool) (cmd_result : PyVal)
  : list FileInfo :=
  map (fun path =>
         match mode f with
         | In => hash_and_stat w path
         | Out => if out_files_exist then hash_and_stat w path else absent_file path
         end)
      (resolve w f cmd_result).

(** What the encoder makes of an argument value when file arguments are
    written with the given [out_files_exist]. *)
Fixpoint serialized (w : World) (out_files_exist : bool) (cmd_result : PyVal) (v : ArgVal) : Ser :=
  match v with
  | AVal p => SPlain p
  | AFileArg f => SFileInfo (file_infos w f out_files_exist cmd_result)
  | AList l => SList (map (serialized w out_files_exist cmd_result) l)
  | ATuple l => SList (map (serialized w out_files_exist cmd_result) l)
  end.

(** The record the store receives for an assembled step. *)
Definition stored_step (w : World) (cmd_result : PyVal) (st : Step ArgVal) : Step Ser :=
  let out_files_exist := negb (truthy_text (exception (run_info st))) in
  mkStep (step_id st) (run_id st) (cmd_module st)
         (serialized w out_files_exist cmd_result (cmd_name st))
         (version_info st) (run_env st) (run_info st)
         (serialized w out_files_exist cmd_result <$> args st)
         (metadata_from_cmd_line st) (metadata_from_cmd_return st) (enclosing_steps st).

(** ** One interception *)

(** The steps enclosing a call made in world [w], as [tmp_set_env] reads
    them on entry. *)
Definition enclosing_at (w : World) : list string :=
  match environ w !! "VIRAL_NGS_METADATA_STEPS_RUNNING" with
  | Some s => Py.split_on ":"%char s
  | None => []
  end.

(** The identifier [create_run_id(t)] returns in world [w]. *)
Definition fresh_run_id (t : Z) (w : World) : string :=
  Py.slice_to 210
    (string_to_file_name
       (Py.join "__" [Py.slice_from 2 (strftime_local w t); user w;
                      Py.basename (cwd w); uuid_stream w (uuid_next w)])).

Definition cmd_name_at (cmd_main : CmdMain) (args : Namespace) : ArgVal :=
  match attrs args !! "command" with
  | Some v => v
  | None => AVal (PStr (main_name cmd_main))
  end.

(** The run id and the step id of the call of [cmd_main] on [args] that
    starts in world [w]. *)
Definition run_id_at (w : World) : string :=
  default (fresh_run_id (now w) w) (environ w !! "VIRAL_NGS_METADATA_RUN_ID").

Definition step_id_at (cmd_main : CmdMain) (args : Namespace) (w : World) : string :=
  Py.join "__" [fresh_run_id (now w) (set_uuid_next (S (uuid_next w)) w);
                main_module cmd_main; str_of w (cmd_name_at cmd_main args)].

(** The world in which the wrapped command starts. *)
Definition world_at_yield (cmd_main : CmdMain) (args : Namespace) (w : World) : World :=
  let step_id := step_id_at cmd_main args w in
  let w2 := set_uuid_next (S (S (uuid_next w))) w in
  let w3 :=
    match environ w !! "VIRAL_NGS_METADATA_SAVE_STEP_ID_TO" with
    | Some path =>
        match open_error w path with
        | Some e => set_log (log w ++ [LogWarning e]) w2
        | None => set_files (<[path := mkFileData step_id (now w)]> (files w)) w2
        end
    | None => w2
    end in
  set_environ
    (insert "VIRAL_NGS_METADATA_STEPS_RUNNING"
       match environ w !! "VIRAL_NGS_METADATA_STEPS_RUNNING" with
       | Some (String c s) => String c s +:+ ":" +:+ step_id
       | _ => step_id
       end) w3.

(** Leaving the scope of [tmp_set_env] entered in world [w]. *)
Definition leave (w w' : World) : World :=
  set_environ
    match environ w !! "VIRAL_NGS_METADATA_STEPS_RUNNING" with
    | Some s => insert "VIRAL_NGS_METADATA_STEPS_RUNNING" s
    | None => delete "VIRAL_NGS_METADATA_STEPS_RUNNING"
    end w'.

(** What [cmd_call_cmd] would record for the call that started in [w]. *)
Definition recording (cmd_main : CmdMain) (args : Namespace) (w : World)
    (cmd_result : PyVal) (cmd_exception_str : option string) : M unit :=
  record_step (mkStepData true VIRAL_NGS_METADATA_FORMAT None) args
    (main_module cmd_main) (cmd_name_at cmd_main args) (step_id_at cmd_main args w)
    (run_id_at w) (now w) (enclosing_at w) cmd_result cmd_exception_str.

(** The decision and what follows it, under [errors_as_warnings]. *)
Definition decision (cmd_main : CmdMain) (args : Namespace) (w : World)
    (cmd_result : PyVal) (cmd_exception_str : option string) : M unit :=
  errors_as_warnings
    (enabled <- is_metadata_tracking_enabled ;;
     when (enabled && is_empty (enclosing_at w))
          (recording cmd_main args w cmd_result cmd_exception_str)).

(** The command-line metadata and the metadata of the command result that
    [gather_user_metadata] computes. *)
Definition cmd_line_metadata (w : World) (args_dict : Namespace) : gmap string string :=
  dict_update (metadata_from_environ (environ w))
              (dict_of_pairs (match metadata args_dict with Some (p :: ps) => p :: ps | _ => [] end)).

Definition cmd_return_metadata (cmd_result : PyVal) : PyVal :=
  match cmd_result with
  | VDict items => dict_get "__metadata__" items (VDict [])
  | _ => VDict []
  end.

(** The step that [record_step] assembles, given the version information
    and the run environment it gathered and the world [w3] it then writes
    the record in. *)
Definition assembled_step (args_dict : Namespace) (cmd_module : string) (cmd_name : ArgVal)
    (step_id run_id : string) (beg_time : Z) (enclosing_steps : list string)
    (cmd_result : PyVal) (cmd_exception_str : option string)
    (w w3 : World) (vi : VersionInfo) (re : RunEnv) : Step ArgVal :=
  mkStep step_id run_id cmd_module cmd_name vi re
         (mkRunInfo beg_time (now w) (now w - beg_time) cmd_exception_str (argv w3))
         (delete "func_main" (attrs args_dict))
         (cmd_line_metadata w args_dict) (cmd_return_metadata cmd_result)
         enclosing_steps.

(** Whether [unpack_outcome] reaches its [yield], that is, whether the
    decision to record is taken at all. *)
Definition captured (outcome : Outcome) : bool :=
  match outcome with
  | Ok _ => true
  | Raise e => negb (is_interrupt_or_exit e) && is_Exception e
  end.

(** What the caller of the hook gets when the command came back with the
    outcome [r] and recording is over: the result, or the exception, but in
    place of a [StopIteration] that is true the [RuntimeError] that leaves
    the generator of [unpack_outcome]. *)
Definition delivered (r : Outcome) : Outcome :=
  match r with
  | Ok results => Ok results
  | Raise e =>
      if is_StopIteration e && exc_truth e
      then Raise (RuntimeError "generator raised StopIteration")
      else Raise e
  end.

(** The [cmd_result] and [cmd_exception_str] that [unpack_outcome] yields. *)
Definition cmd_result_of (outcome : Outcome) : PyVal :=
  match outcome with
  | Ok (first :: _) => first
  | Ok [] => VList []
  | Raise _ => VNone
  end.

Definition exception_text_of (outcome : Outcome) : option string :=
  match outcome with
  | Ok _ => None
  | Raise e => Some (format_exc e)
  end.

(** The record stored for the call of [cmd_main] on [args] that started in
    world [w], when the command came back with [r] in world [wy]. *)
Definition record_of (cmd_main : CmdMain) (args : Namespace) (w : World)
    (r : Outcome) (wy w3 : World) (vi : VersionInfo) (re : RunEnv) : StepData Ser :=
  mkStepData true VIRAL_NGS_METADATA_FORMAT
    (Some (stored_step w3 (cmd_result_of r)
             (assembled_step args (main_module cmd_main) (cmd_name_at cmd_main args)
                (step_id_at cmd_main args w) (run_id_at w) (now w) (enclosing_at w)
                (cmd_result_of r) (exception_text_of r) wy w3 vi re))).

(** ** A concrete setting: [align] on one input and one output file *)

Definition one_file (p : Plain) : list string :=
  match p with
  | PStr s => [s]
  | _ => []
  end.

Definition in_bam : FileArg := mkFileArg (PStr "a.bam") In one_file.
Definition out_bam : FileArg := mkFileArg (PStr "b.bam") Out one_file.

Definition align_main : CmdMain := mkCmdMain "read_utils" "align".

Definition align_args : Namespace :=
  mkNamespace (Some [("sample", "s1")])
    (<["in_bam" := AFileArg in_bam]> (<["out_bam" := AFileArg out_bam]> ∅)).

(** A world with both files on disk, tracking as given, the environment as
    given, and a store that fails as given. *)
Definition lab (env : gmap string string) (tracking : bool) (fault : option Exc) : World :=
  mkWorld env "/home/ann/project" "ann" ["read_utils.py"; "align"] 1000
    (fun _ => "20180102030405") (fun n => "uuid") 0 (fun _ => "object")
    (<["a.bam" := mkFileData "ACGT" 5]> (<["b.bam" := mkFileData "TTTT" 7]> ∅)) ∅
    (fun p => p) (fun _ => Ok "")
    "Linux" "host.example.org" (Ok 4) "/opt/viral-ngs" (Ok "v1.0") (fun c => "sha:" +:+ c)
    (fun _ _ => []) "/md" tracking fault (fun _ => None) [] [].

Definition align_ok (a : Namespace) : M (list PyVal) := ret [VStr "done"].

Definition align_fails (a : Namespace) : M (list PyVal) :=
  raise (mkExc (ExceptionSubclass "ValueError") "bad input").

Definition align_interrupted (a : Namespace) : M (list PyVal) :=
  raise (mkExc KeyboardInterrupt "").

Definition stop_iteration : Exc := mkExc (StopIterationSubclass "StopIteration") "".

Definition align_stops (a : Namespace) : M (list PyVal) := raise stop_iteration.

Definition disk_full : Exc := mkExc (ExceptionSubclass "IOError") "No space left on device".

(** The record [align] leaves when it starts in world [w] and comes back
    with [r] without touching the world. *)
Definition align_record (w : World) (r : Outcome) : StepData Ser :=
  record_of align_main align_args w r
    (world_at_yield align_main align_args w)
    (set_log [LogInfoFinished "read_utils" "align" 0 (exception_text_of r)]
       (world_at_yield align_main align_args w))
    (mkVersionInfo "v1.0" "/opt/viral-ngs" "/opt/viral-ngs" "")
    (mkRunEnv "" "Linux" 4 "host.example.org" "ann" "/home/ann/project" "" false ∅).

(** A checkout with local changes, on a branch, with the detailed
    environment asked for. *)
Definition dirty_checkout : World :=
  mkWorld (<["VIRAL_NGS_METADATA_DETAILED_ENV" := "1"]> ∅)
    "/home/ann/project" "ann" ["read_utils.py"; "align"] 1000
    (fun _ => "20180102030405") (fun n => "uuid") 0 (fun _ => "object")
    (<["/opt/viral-ngs/.git/HEAD" := mkFileData ("ref: refs/heads/master" +:+ newline) 1]>
       (<["/opt/viral-ngs/.git/refs/heads/master" := mkFileData ("abc123" +:+ newline) 2]> ∅))
    {["/md/code_repo"]}
    (fun p => p)
    (fun cmd => if String.eqb cmd "git stash create" then Ok "def456" else Ok "")
    "Linux" "host.example.org" (Ok 4) "/opt/viral-ngs" (Ok "v1.0") (fun c => "sha:" +:+ c)
    (fun _ _ => []) "/md" true None (fun _ => None) [] [].

(** ** What recording changes *)

(** A world without its log and its stored records: two worlds that agree
    on it differ at most in what was logged and stored. *)
Definition forget_records (w : World) : World := set_db [] (set_log [] w).

Definition same_but_records (w' w : World) : Prop :=
  forget_records w' = forget_records w.

(** A computation that changes nothing but the log and the store, whatever
    it returns or raises. *)
Definition quiet {A} (m : M A) : Prop := forall w, same_but_records (m w).2 w.

(** ** The [--metadata] option *)

(** An option of an argument parser, as [add_argument] is given it. *)
Record OptionSpec := mkOptionSpec {
  option_string : string;
  option_nargs : nat;
  option_metavar : list string;
  option_action : string;
  option_help : string
}.

(** The argument parser: its options, and the attribute
    [metadata_arg_added], false when it was never set. *)
Record Parser := mkParser {
  parser_options : list OptionSpec;
  metadata_arg_added : bool
}.

Definition ArgumentError (flag : string) : Exc :=
  mkExc (ExceptionSubclass "ArgumentError") ("conflicting option string: " +:+ flag).

(** [parser.add_argument(...)] of argparse with its default conflict
    handler: an option string that is already taken is an error. *)
Definition add_argument (o : OptionSpec) (p : Parser) : Result Parser :=
  if existsb (String.eqb (option_string o)) (map option_string (parser_options p))
  then Raise (ArgumentError (option_string o))
  else Ok (mkParser (parser_options p ++ [o]) (metadata_arg_added p)).

Definition metadata_option : OptionSpec :=
  mkOptionSpec "--metadata" 2 ["ATTRIBUTE"; "VALUE"] "append"
    "attach metadata to this step (step=this specific execution of this command)".

(** [add_metadata_arg(cmd_parser)] *)
Definition add_metadata_arg (cmd_parser : Parser) : Result Parser :=
  if negb (metadata_arg_added cmd_parser) then
    match add_argument metadata_option cmd_parser with
    | Ok p => Ok (mkParser (parser_options p) true)
    | Raise e => Raise e
    end
  else Ok cmd_parser.

(** [cmd_configure_parser(parser)] *)
Definition cmd_configure_parser (parser : Parser) : Result Parser :=
  add_metadata_arg parser.

(** Configuring the same parser [n] times in a row. *)
Fixpoint configure_times (n : nat) (parser : Parser) : Result Parser :=
  match n with
  | O => Ok parser
  | S n' =>
      match cmd_configure_parser parser with
      | Ok p => configure_times n' p
      | Raise e => Raise e
      end
  end.

(** ** More of the concrete setting *)

Definition generator_exit : Exc := mkExc (OtherBaseException "GeneratorExit") "".

Definition align_closed (a : Namespace) : M (list PyVal) := raise generator_exit.

(** The [cmd_exception] that [unpack_outcome] yields. *)
Definition cmd_exception_of (outcome : Outcome) : option Exc :=
  match outcome with
  | Ok _ => None
  | Raise e => Some e
  end.

(** Arguments as the parser of a subcommand leaves them: with the name of
    the subcommand and the function that implements it. *)
Definition parsed_args : Namespace :=
  mkNamespace (Some [("sample", "s1")])
    (<["func_main" := AVal (PStr "main_align_bam")]>
       (<["command" := AVal (PStr "align_bam")]> (attrs align_args))).

Definition parsed_record (w : World) (r : Outcome) : StepData Ser :=
  record_of align_main parsed_args w r
    (world_at_yield align_main parsed_args w)
    (set_log [LogInfoFinished "read_utils" "align_bam" 0 (exception_text_of r)]
       (world_at_yield align_main parsed_args w))
    (mkVersionInfo "v1.0" "/opt/viral-ngs" "/opt/viral-ngs" "")
    (mkRunEnv "" "Linux" 4 "host.example.org" "ann" "/home/ann/project" "" false ∅).


(** The path of a file of the repository of the project. *)
Definition git_path (w : World) (name : string) : string :=
  Py.path_join (Py.path_join (project_path w) ".git") name.

(** A clean checkout on a branch. *)
Definition clean_checkout : World := set_environ (fun _ => ∅) dirty_checkout.

(** A checkout whose branch head is not a file of its own (as after the
    references were packed). *)
Definition packed_checkout : World :=
  set_files (<["/opt/viral-ngs/.git/HEAD" :=
                 mkFileData ("ref: refs/heads/master" +:+ newline) 1]> ∅) clean_checkout.

(** A checkout with [HEAD] detached at a commit. *)
Definition detached_checkout : World :=
  set_files (<["/opt/viral-ngs/.git/HEAD" := mkFileData ("abc123" +:+ newline) 1]> ∅)
            clean_checkout.


Definition conda_missing : Exc :=
  mkExc (ExceptionSubclass "CalledProcessError") "conda: command not found".

(** A world where the detailed environment is asked for and [conda] cannot
    be run. *)
Definition lab_without_conda : World :=
  mkWorld (<["VIRAL_NGS_METADATA_DETAILED_ENV" := "1"]> ∅)
    "/home/ann/project" "ann" ["read_utils.py"; "align"] 1000
    (fun _ => "20180102030405") (fun n => "uuid") 0 (fun _ => "object")
    (<["a.bam" := mkFileData "ACGT" 5]> ∅) ∅
    (fun p => p)
    (fun cmd => if String.eqb cmd "conda env export" then Raise conda_missing else Ok "")
    "Linux" "host.example.org" (Ok 4) "/opt/viral-ngs" (Ok "v1.0") (fun c => "sha:" +:+ c)
    (fun _ _ => []) "/md" true None (fun _ => None) [] [].

Definition version_unknown : Exc :=
  mkExc (ExceptionSubclass "CalledProcessError") "git describe failed".

(** A world where the version of the project cannot be told. *)
Definition lab_without_version : World :=
  mkWorld ∅
    "/home/ann/project" "ann" ["read_utils.py"; "align"] 1000
    (fun _ => "20180102030405") (fun n => "uuid") 0 (fun _ => "object")
    (<["a.bam" := mkFileData "ACGT" 5]> ∅) ∅
    (fun p => p) (fun _ => Ok "")
    "Linux" "host.example.org" (Ok 4) "/opt/viral-ngs" (Raise version_unknown)
    (fun c => "sha:" +:+ c)
    (fun _ _ => []) "/md" true None (fun _ => None) [] [].

(** A command that leaves a metadata value in the environment and returns
    metadata of its own. *)
Definition align_with_metadata (a : Namespace) : M (list PyVal) :=
  modify (set_environ (insert "VIRAL_NGS_METADATA_VALUE_aligner" "novoalign")) ;;
  ret [VDict [("__metadata__", VDict [("reads", VInt 42)])]; VStr "ignored"].

(** A parser with one option of its own. *)
Definition sample_parser : Parser :=
  mkParser [mkOptionSpec "--threads" 1 ["N"] "store" "number of threads"] false.

(** * Properties *)

(** ** Strings *)

Lemma length_slice_to (n : nat) (s : string) : (String.length (Py.slice_to n s) <= n)%nat.
Proof.
  revert s. induction n as [|n IH]; intros [|c s]; simpl; try lia.
  specialize (IH s). lia.
Qed.

Lemma fs_safe_slice_to (n : nat) (s : string) :
  fs_safe s = true -> fs_safe (Py.slice_to n s) = true.
Proof.
  revert s. induction n as [|n IH]; intros [|c s]; simpl; try reflexivity.
  intros [Hc Hs]%andb_prop. rewrite Hc. simpl. now apply IH.
Qed.

Lemma fs_safe_underscore : fs_safe_char "_"%char = true.
Proof. reflexivity. Qed.

Lemma fs_safe_string_to_file_name (s : string) : fs_safe (string_to_file_name s) = true.
Proof.
  induction s as [|c s IH]; simpl; [reflexivity|].
  rewrite IH, andb_true_r.
  destruct (fs_safe_char c) eqn:Hc; [exact Hc | exact fs_safe_underscore].
Qed.

Lemma app_cons (c : ascii) (p s : string) : String c p +:+ s = String c (p +:+ s).
Proof. reflexivity. Qed.

Lemma app_nil (s : string) : "" +:+ s = s.
Proof. reflexivity. Qed.

Lemma prefix_nil (s : string) : String.prefix "" s = true.
Proof. destruct s; reflexivity. Qed.

Lemma startswith_app (p s : string) : Py.startswith p (p +:+ s) = true.
Proof.
  unfold Py.startswith. induction p as [|c p IH].
  - apply prefix_nil.
  - rewrite app_cons. simpl. destruct (ascii_dec c c); [exact IH | congruence].
Qed.

Lemma slice_from_app (p s : string) : Py.slice_from (String.length p) (p +:+ s) = s.
Proof.
  induction p as [|c p IH]; [reflexivity|].
  rewrite app_cons. simpl. exact IH.
Qed.

Lemma startswith_split (p s : string) :
  Py.startswith p s = true -> s = p +:+ Py.slice_from (String.length p) s.
Proof.
  unfold Py.startswith. revert s. induction p as [|c p IH]; intros s.
  - reflexivity.
  - destruct s as [|a s]; [discriminate|]. simpl.
    destruct (ascii_dec c a) as [->|]; [|discriminate].
    intros H. rewrite app_cons. f_equal. now apply IH.
Qed.

Lemma join_nonempty (sep a b : string) (rest : list string) :
  sep <> "" -> Py.join sep (a :: b :: rest) <> "".
Proof.
  intros Hsep H. cbn [Py.join] in H.
  destruct a as [|c a]; [|rewrite app_cons in H; discriminate].
  rewrite app_nil in H.
  destruct sep as [|c sep]; [congruence|rewrite app_cons in H; discriminate].
Qed.

Lemma split_on_go_nonempty (c : ascii) (cur s : string) : Py.split_on_go c cur s <> [].
Proof.
  revert cur. induction s as [|a s IH]; intros cur; simpl; [discriminate|].
  destruct (Ascii.eqb a c); [discriminate | apply IH].
Qed.

Lemma split_on_nonempty (c : ascii) (s : string) : s <> "" -> Py.split_on c s <> [].
Proof.
  destruct s as [|a s]; [congruence|]. intros _.
  unfold Py.split_on. apply split_on_go_nonempty.
Qed.

(** ** Run ids *)

(** C4: for every timestamp (and every state of the world it is called in)
    [create_run_id] returns, without raising, a string of at most 210
    characters, all of them in the filesystem-safe character set. *)
Theorem create_run_id_bounded_and_safe (t : option Z) (w : World) :
  exists (s : string) (w' : World),
    create_run_id t w = (Ok s, w') /\
    (String.length s <= 210)%nat /\
    fs_safe s = true.
Proof.
  unfold create_run_id, bind, gets, uuid4, ret.
  eexists _, _. split; [reflexivity|]. split.
  - apply length_slice_to.
  - apply fs_safe_slice_to, fs_safe_string_to_file_name.
Qed.

(** ** Argument normalisation *)

Lemma replaced_has_no_file_arg (v : ArgVal) : has_file_arg (_replace_file_args v) = false.
Proof.
  revert v. fix IH 1. intros [p|f|l|l]; simpl; try reflexivity.
  - induction l as [|x l IHl]; simpl; [reflexivity|]. now rewrite IH, IHl.
  - induction l as [|x l IHl]; simpl; [reflexivity|]. now rewrite IH, IHl.
Qed.

Lemma attrs_lookup_metadata (args : Namespace) : attrs args !! "metadata" = None.
Proof. apply lookup_delete_eq. Qed.

Lemma attrs_without_func_main (m m' : option (list (string * string))) (args : Namespace) :
  attrs (mkNamespace m (delete "func_main" (attrs (mkNamespace m' (attrs args))))) =
  delete "func_main" (attrs args).
Proof.
  unfold attrs. cbn [named].
  now rewrite delete_delete_eq, (delete_delete _ "metadata" "func_main"), delete_delete_eq.
Qed.

Lemma attrs_replace_file_args (args : Namespace) :
  attrs (replace_file_args args) = _replace_file_args <$> attrs args.
Proof.
  unfold replace_file_args, attrs. cbn [named].
  now rewrite fmap_delete, delete_delete_eq.
Qed.

(** C5: [replace_file_args] keeps the names of the arguments, puts the raw
    value in place of a [FileArg], does so element by element inside lists
    and tuples, and leaves no [FileArg] anywhere in a value; the pairs of
    [--metadata] are untouched. *)
Theorem replace_file_args_leaves_no_file_arg (args : Namespace) (k : string) (v0 : ArgVal) :
  attrs args !! k = Some v0 ->
  exists v : ArgVal,
    attrs (replace_file_args args) !! k = Some v /\
    has_file_arg v = false /\
    (forall f, v0 = AFileArg f -> v = AVal (val f)) /\
    (forall l, v0 = AList l \/ v0 = ATuple l -> v = AList (map _replace_file_args l)) /\
    (forall p, v0 = AVal p -> v = v0) /\
    metadata (replace_file_args args) = metadata args /\
    (forall k', attrs args !! k' = None -> attrs (replace_file_args args) !! k' = None).
Proof.
  intros Hk. exists (_replace_file_args v0).
  rewrite attrs_replace_file_args.
  repeat split.
  - now rewrite lookup_fmap, Hk.
  - apply replaced_has_no_file_arg.
  - now intros f ->.
  - now intros l [-> | ->].
  - now intros p ->.
  - intros k' Hk'. now rewrite lookup_fmap, Hk'.
Qed.

Lemma replace_file_args_leaves_no_file_arg_witness :
  attrs (replace_file_args align_args) !! "in_bam" = Some (AVal (PStr "a.bam")) /\
  has_file_arg (AVal (PStr "a.bam")) = false.
Proof.
  destruct (replace_file_args_leaves_no_file_arg align_args "in_bam" (AFileArg in_bam))
    as (v & Hv & Hno & Hraw & _); [vm_compute; reflexivity|].
  rewrite (Hraw in_bam eq_refl) in Hv. split; [exact Hv | reflexivity].
Defined.

(** ** User metadata *)

Lemma metadata_from_environ_lookup (env : gmap string string) (k : string) :
  metadata_from_environ env !! k = env !! (METADATA_VALUE_PREFIX +:+ k).
Proof.
  unfold metadata_from_environ. revert k.
  apply (map_fold_weak_ind
           (fun (acc env : gmap string string) =>
              forall k, acc !! k = env !! (METADATA_VALUE_PREFIX +:+ k))).
  - intros k. now rewrite !lookup_empty.
  - intros i x m acc Hi IH k.
    destruct (Py.startswith METADATA_VALUE_PREFIX i) eqn:Hpre.
    + apply startswith_split in Hpre.
      destruct (decide (Py.slice_from (String.length METADATA_VALUE_PREFIX) i = k)) as [Heq|Hne].
      * rewrite Heq in Hpre. rewrite <- Hpre, Heq. now rewrite !lookup_insert_eq.
      * rewrite lookup_insert_ne by exact Hne.
        rewrite lookup_insert_ne; [apply IH|].
        intros ->. apply Hne. apply slice_from_app.
    + rewrite lookup_insert_ne; [apply IH|].
      intros ->. now rewrite startswith_app in Hpre.
Qed.

Lemma foldl_insert_lookup (pairs : list (string * string)) (d : gmap string string) (k : string) :
  foldl (fun d kv => <[kv.1 := kv.2]> d) d pairs !! k =
  match last_value k pairs with
  | Some v => Some v
  | None => d !! k
  end.
Proof.
  revert d. induction pairs as [|[k' v] rest IH]; intros d; simpl; [reflexivity|].
  rewrite IH. destruct (last_value k rest); [reflexivity|].
  destruct (String.eqb_spec k' k) as [->|Hne].
  - apply lookup_insert_eq.
  - now apply lookup_insert_ne.
Qed.

Lemma dict_of_pairs_lookup (pairs : list (string * string)) (k : string) :
  dict_of_pairs pairs !! k = last_value k pairs.
Proof.
  unfold dict_of_pairs. rewrite foldl_insert_lookup.
  destruct (last_value k pairs); [reflexivity | apply lookup_empty].
Qed.

Lemma dict_update_lookup (d other : gmap string string) (k : string) :
  dict_update d other !! k =
  match other !! k with
  | Some v => Some v
  | None => d !! k
  end.
Proof.
  unfold dict_update. rewrite lookup_union.
  destruct (other !! k), (d !! k); reflexivity.
Qed.

(** C10: in the mapping recorded as [metadata_from_cmd_line] a key has the
    value of the last [--metadata] pair that names it, and only without such
    a pair the value of the environment variable of that name under the
    prefix; the metadata the command returns is a mapping of its own, taken
    from the result under [__metadata__] when the result is a mapping and
    empty otherwise, whatever the environment and the command line hold.
    The call raises nothing, changes nothing in the world, and takes
    [metadata] out of the arguments. *)
Theorem gather_user_metadata_precedence (args_dict : Namespace) (cmd_result : PyVal) (w : World) :
  exists (from_cmd_line : gmap string string) (from_cmd_return : PyVal),
    gather_user_metadata args_dict cmd_result w =
      (Ok (from_cmd_line, from_cmd_return, mkNamespace None (attrs args_dict)), w) /\
    (forall k,
        from_cmd_line !! k =
        match last_value k (default [] (metadata args_dict)) with
        | Some v => Some v
        | None => environ w !! (METADATA_VALUE_PREFIX +:+ k)
        end) /\
    (forall items, cmd_result = VDict items ->
                   from_cmd_return = dict_get "__metadata__" items (VDict [])) /\
    ((forall items, cmd_result <> VDict items) -> from_cmd_return = VDict []).
Proof.
  unfold gather_user_metadata, bind, gets, ret.
  eexists _, _. split; [reflexivity|]. split; [|split].
  - intros k. rewrite dict_update_lookup, dict_of_pairs_lookup, metadata_from_environ_lookup.
    destruct (metadata args_dict) as [[|p ps]|]; reflexivity.
  - intros items ->. reflexivity.
  - intros Hno. destruct cmd_result; try reflexivity. now destruct (Hno items).
Qed.

(** ** Runs of computations *)

Lemma bind_run {A B} (m : M A) (k : A -> M B) (w : World) :
  bind m k w = match m w with
               | (Ok a, w') => k a w'
               | (Raise e, w') => (Raise e, w')
               end.
Proof. reflexivity. Qed.

Lemma bind_ok_inv {A B} (m : M A) (k : A -> M B) (w w' : World) (b : B) :
  bind m k w = (Ok b, w') ->
  exists a w1, m w = (Ok a, w1) /\ k a w1 = (Ok b, w').
Proof.
  unfold bind. destruct (m w) as [[a|e] w1]; [|discriminate].
  intros H. now exists a, w1.
Qed.

Lemma errors_as_warnings_run (body : M unit) (w : World) :
  errors_as_warnings body w =
  match body w with
  | (Ok _, w') => (Ok tt, w')
  | (Raise e, w') => (Ok tt, set_log (log w' ++ [LogWarning e]) w')
  end.
Proof.
  unfold errors_as_warnings, errors_as_warnings_locals. simpl.
  destruct (body w) as [[[]|e] w']; reflexivity.
Qed.

Lemma same_store_refl (w : World) : same_store w w.
Proof. now repeat split. Qed.

Lemma same_store_trans (w1 w2 w3 : World) :
  same_store w1 w2 -> same_store w2 w3 -> same_store w1 w3.
Proof. unfold same_store. intros (-> & -> & -> & ->) H. exact H. Qed.

Lemma keeps_db_ret {A} (a : A) : keeps_db (ret a).
Proof. intros w. apply same_store_refl. Qed.

Lemma keeps_db_raise {A} (e : Exc) : keeps_db (@raise A e).
Proof. intros w. now repeat split. Qed.

Lemma keeps_db_gets {A} (f : World -> A) : keeps_db (gets f).
Proof. intros w. now repeat split. Qed.

Lemma keeps_db_bind {A B} (m : M A) (k : A -> M B) :
  keeps_db m -> (forall a, keeps_db (k a)) -> keeps_db (bind m k).
Proof.
  intros Hm Hk w. unfold bind. specialize (Hm w).
  destruct (m w) as [[a|e] w1]; simpl in *; [|exact Hm].
  exact (same_store_trans _ _ _ (Hk a w1) Hm).
Qed.

Lemma keeps_db_if {A} (b : bool) (m1 m2 : M A) :
  keeps_db m1 -> keeps_db m2 -> keeps_db (if b then m1 else m2).
Proof. now destruct b. Qed.

Lemma keeps_db_log_entry (e : LogEntry) : keeps_db (log_entry e).
Proof. intros w. now repeat split. Qed.

Lemma keeps_db_uuid4 : keeps_db uuid4.
Proof. intros w. now repeat split. Qed.

Lemma keeps_db_slurp_file (p : string) : keeps_db (slurp_file p).
Proof. intros w. unfold slurp_file. destruct (files w !! p); apply same_store_refl. Qed.

Lemma keeps_db_shell (cmd : string) : keeps_db (_shell_cmd cmd).
Proof. intros w. now repeat split. Qed.

Lemma keeps_db_shell_unchecked (cmd : string) : keeps_db (_shell_cmd_unchecked cmd).
Proof.
  intros w. unfold _shell_cmd_unchecked. destruct (shell w cmd); apply same_store_refl.
Qed.

Lemma keeps_db_index {A} (l : list A) (i : nat) : keeps_db (index l i).
Proof. unfold index. destruct (l !! i); [apply keeps_db_ret | apply keeps_db_raise]. Qed.

Lemma keeps_db_pushd_popd {A} (d : string) (body : M A) :
  keeps_db body -> keeps_db (pushd_popd d body).
Proof.
  intros Hb w. unfold pushd_popd. specialize (Hb (set_cwd d w)).
  destruct (body (set_cwd d w)) as [r w']. exact Hb.
Qed.

Lemma run_statements_db {S} (stmts : list (S -> M S)) :
  Forall (fun stmt => forall s, keeps_db (stmt s)) stmts ->
  forall s w, same_store (run_statements stmts s w).2 w.
Proof.
  induction 1 as [|stmt rest Hstmt _ IH]; intros s w; simpl; [apply same_store_refl|].
  specialize (Hstmt s w). destruct (stmt s w) as [[s'|e] w']; simpl in *.
  - exact (same_store_trans _ _ _ (IH s' w') Hstmt).
  - exact Hstmt.
Qed.

Lemma keeps_db_errors_as_warnings_locals {S} (stmts : list (S -> M S)) (s : S) :
  Forall (fun stmt => forall s, keeps_db (stmt s)) stmts ->
  keeps_db (errors_as_warnings_locals stmts s).
Proof.
  intros H w. unfold errors_as_warnings_locals.
  pose proof (run_statements_db stmts H s w) as Hdb.
  destruct (run_statements stmts s w) as [[s' [e|]] w']; exact Hdb.
Qed.

Lemma keeps_db_errors_as_warnings (body : M unit) :
  keeps_db body -> keeps_db (errors_as_warnings body).
Proof.
  intros H. apply keeps_db_errors_as_warnings_locals.
  constructor; [intros _; exact H | constructor].
Qed.

Create HintDb keeps_db.
#[local] Hint Resolve keeps_db_ret keeps_db_raise keeps_db_gets keeps_db_log_entry
  keeps_db_uuid4 keeps_db_slurp_file keeps_db_shell keeps_db_shell_unchecked
  keeps_db_index keeps_db_pushd_popd keeps_db_errors_as_warnings : keeps_db.

Ltac keeps_db :=
  repeat first
    [ progress intros
    | apply keeps_db_bind
    | apply keeps_db_if
    | apply keeps_db_pushd_popd
    | apply keeps_db_errors_as_warnings
    | solve [auto with keeps_db]
    | match goal with
      | |- keeps_db (match ?x with _ => _ end) => destruct x
      end ].

Lemma keeps_db_create_run_id (t : option Z) : keeps_db (create_run_id t).
Proof. unfold create_run_id. keeps_db. Qed.

Lemma keeps_db_save_dirty_repo (code_hash tag : string) (push_to : option string) :
  keeps_db (save_dirty_repo code_hash tag push_to).
Proof. unfold save_dirty_repo. keeps_db. Qed.

Lemma keeps_db_tag_code_version (tag : string) (push_to : option string) :
  keeps_db (tag_code_version tag push_to).
Proof.
  unfold tag_code_version. apply keeps_db_errors_as_warnings_locals.
  constructor; [|constructor; [|constructor]]; intros s.
  - unfold read_head_hash, isfile. keeps_db.
  - unfold tag_if_detailed. keeps_db.
Qed.

Lemma keeps_db_gather_version_info (step_id : string) : keeps_db (gather_version_info step_id).
Proof.
  unfold gather_version_info, isdir. keeps_db.
  apply keeps_db_tag_code_version.
Qed.

Lemma keeps_db_gather_run_env : keeps_db gather_run_env.
Proof.
  unfold gather_run_env. keeps_db.
Qed.

Lemma keeps_db_gather_run_info (b e : Z) (s : option string) : keeps_db (gather_run_info b e s).
Proof. unfold gather_run_info. keeps_db. Qed.

Lemma keeps_db_gather_user_metadata (args_dict : Namespace) (cmd_result : PyVal) :
  keeps_db (gather_user_metadata args_dict cmd_result).
Proof. unfold gather_user_metadata. keeps_db. Qed.

(** ** Writing the record *)

Lemma format_exc_nonempty (e : Exc) : format_exc e <> "".
Proof. unfold format_exc. discriminate. Qed.

Lemma write_obj_file_arg (step_data : StepData ArgVal) (st : Step ArgVal)
    (cmd_result : PyVal) (f : FileArg) (w : World) :
  step step_data = Some st ->
  write_obj step_data cmd_result (AFileArg f) w =
    (Ok (SFileInfo (file_infos w f (negb (truthy_text (exception (run_info st)))) cmd_result)), w).
Proof. intros Hst. unfold write_obj. rewrite Hst. reflexivity. Qed.

Lemma mapM_pure {A B} (f : A -> M B) (g : A -> B) (l : list A) (w : World) :
  Forall (fun x => f x w = (Ok (g x), w)) l ->
  mapM f l w = (Ok (map g l), w).
Proof.
  induction 1 as [|x l Hx _ IH]; [reflexivity|].
  simpl. rewrite bind_run, Hx, bind_run. fold (mapM f). rewrite IH. reflexivity.
Qed.

Lemma encode_write_obj (step_data : StepData ArgVal) (st : Step ArgVal)
    (cmd_result : PyVal) (w : World) (v : ArgVal) :
  step step_data = Some st ->
  encode (write_obj step_data cmd_result) v w =
    (Ok (serialized w (negb (truthy_text (exception (run_info st)))) cmd_result v), w).
Proof.
  intros Hst. revert v. fix IH 1. intros [p|f|l|l].
  - reflexivity.
  - simpl. now apply write_obj_file_arg.
  - simpl. rewrite bind_run,
      (mapM_pure _ (serialized w (negb (truthy_text (exception (run_info st)))) cmd_result));
      [reflexivity|].
    induction l as [|x l IHl]; constructor; [apply IH | exact IHl].
  - simpl. rewrite bind_run,
      (mapM_pure _ (serialized w (negb (truthy_text (exception (run_info st)))) cmd_result));
      [reflexivity|].
    induction l as [|x l IHl]; constructor; [apply IH | exact IHl].
Qed.

Lemma encode_items_write_obj (step_data : StepData ArgVal) (st : Step ArgVal)
    (cmd_result : PyVal) (w : World) (items : list (string * ArgVal)) :
  step step_data = Some st ->
  encode_items (write_obj step_data cmd_result) items w =
    (Ok (prod_map id (serialized w (negb (truthy_text (exception (run_info st)))) cmd_result)
           <$> items), w).
Proof.
  intros Hst. induction items as [|[k v] rest IH]; [reflexivity|].
  simpl. rewrite bind_run, (encode_write_obj _ st) by exact Hst.
  rewrite bind_run, IH. reflexivity.
Qed.

Lemma record_step_to_db_run (step_data : StepData ArgVal) (st : Step ArgVal)
    (cmd_result : PyVal) (w : World) :
  step step_data = Some st ->
  record_step_to_db step_data cmd_result w =
  match store_fault w with
  | Some e => (Raise e, w)
  | None =>
      (Ok tt,
       set_db (db w ++ [mkStepData (viral_ngs_metadata step_data) (format step_data)
                                   (Some (stored_step w cmd_result st))]) w)
  end.
Proof.
  intros Hst. unfold record_step_to_db, store_step_record. rewrite Hst.
  rewrite !bind_run. unfold encode_step.
  rewrite bind_run, (encode_write_obj _ st) by exact Hst.
  rewrite bind_run, (encode_items_write_obj _ st) by exact Hst.
  cbn [ret]. rewrite list_to_map_fmap, list_to_map_to_list.
  unfold stored_step, bind, gets. destruct (store_fault w); reflexivity.
Qed.

(** ** One interception, step by step *)

Lemma decision_run (cmd_main : CmdMain) (args : Namespace) (w : World)
    (cmd_result : PyVal) (cmd_exception_str : option string) (wy : World) :
  decision cmd_main args w cmd_result cmd_exception_str wy =
  if tracking_enabled wy && is_empty (enclosing_at w) then
    match recording cmd_main args w cmd_result cmd_exception_str wy with
    | (Ok _, w') => (Ok tt, w')
    | (Raise e, w') => (Ok tt, set_log (log w' ++ [LogWarning e]) w')
    end
  else (Ok tt, wy).
Proof.
  unfold decision. rewrite errors_as_warnings_run, bind_run.
  unfold is_metadata_tracking_enabled, gets, when.
  destruct (tracking_enabled wy && is_empty (enclosing_at w)); reflexivity.
Qed.

Ltac world_simpl :=
  unfold set_uuid_next, set_files, set_environ, set_cwd, set_db, set_log, str_of;
  cbn [environ cwd user argv now strftime_local uuid_stream uuid_next py_str files dirs
       realpath shell sys_platform fqdn cpu_count project_path version digest
       result_fnames metadata_dir tracking_enabled store_fault write_fault db log].

(** The rest of a run of [cmd_call_cmd] once the identifiers are there:
    the command, then [unpack_outcome] around the decision. *)
Ltac after_yield yield_ cmd_main args w :=
  match goal with
  | |- context [yield_ ?a ?w0] => destruct (yield_ a w0) as [[?|?] ?]
  end;
  [|reflexivity];
  let b := fresh "b" in
  set (b := fun '(cmd_result, _, cmd_exception_str) =>
              decision cmd_main args w cmd_result cmd_exception_str);
  match goal with
  | |- context [unpack_outcome ?o ?b' ?wy] =>
      lazymatch b' with
      | b => fail
      | _ => change b' with b
      end
  end;
  match goal with
  | |- context [unpack_outcome ?o b ?wy] =>
      destruct (unpack_outcome o b wy) as [[[]|?] ?]
  end;
  reflexivity.

Lemma cmd_call_cmd_run (cmd_main : CmdMain) (args : Namespace)
    (yield_ : Namespace -> M Outcome) (w : World) :
  cmd_call_cmd cmd_main args yield_ w =
  match yield_ (replace_file_args args) (world_at_yield cmd_main args w) with
  | (Raise e, wy) => (Raise (raised_in_generator e), leave w wy)
  | (Ok outcome, wy) =>
      match unpack_outcome outcome
              (fun '(cmd_result, _, cmd_exception_str) =>
                 decision cmd_main args w cmd_result cmd_exception_str) wy with
      | (Ok _, w') => (Ok outcome, leave w w')
      | (Raise e, w') => (Raise (raised_in_generator e), leave w w')
      end
  end.
Proof.
  unfold cmd_call_cmd, generator, world_at_yield, leave, tmp_set_env, step_id_at,
    fresh_run_id, cmd_name_at.
  unfold errors_as_warnings at 1.
  unfold errors_as_warnings_locals, create_run_id, time_time, dump_file, open_error.
  unfold bind, gets, uuid4, ret.
  cbv beta iota delta [run_statements].
  world_simpl.
  destruct (environ w !! "VIRAL_NGS_METADATA_SAVE_STEP_ID_TO") as [path|]; world_simpl.
  - destruct (bool_decide (path ∈ dirs w)); world_simpl.
    + after_yield yield_ cmd_main args w.
    + destruct (write_fault w path); world_simpl; after_yield yield_ cmd_main args w.
  - after_yield yield_ cmd_main args w.
Qed.

Lemma gather_user_metadata_run (args_dict : Namespace) (cmd_result : PyVal) (w : World) :
  gather_user_metadata args_dict cmd_result w =
    (Ok (cmd_line_metadata w args_dict, cmd_return_metadata cmd_result,
         mkNamespace None (attrs args_dict)), w).
Proof. reflexivity. Qed.

Lemma record_step_run (step_data : StepData ArgVal) (args_dict : Namespace)
    (cmd_module : string) (cmd_name : ArgVal) (step_id run_id : string) (beg_time : Z)
    (enclosing_steps : list string) (cmd_result : PyVal) (cmd_exception_str : option string)
    (w : World) :
  record_step step_data args_dict cmd_module cmd_name step_id run_id beg_time
              enclosing_steps cmd_result cmd_exception_str w =
  let w1 := set_log (log w ++ [LogInfoFinished cmd_module (str_of w cmd_name)
                                               (now w - beg_time) cmd_exception_str]) w in
  match gather_version_info step_id w1 with
  | (Raise e, w2) => (Raise e, w2)
  | (Ok vi, w2) =>
      match gather_run_env w2 with
      | (Raise e, w3) => (Raise e, w3)
      | (Ok re, w3) =>
          match store_fault w3 with
          | Some e => (Raise e, w3)
          | None =>
              let st := assembled_step args_dict cmd_module cmd_name step_id run_id beg_time
                                       enclosing_steps cmd_result cmd_exception_str w w3 vi re in
              let w4 := set_db (db w3 ++ [mkStepData (viral_ngs_metadata step_data)
                                                     (format step_data)
                                                     (Some (stored_step w3 cmd_result st))]) w3 in
              (Ok tt, set_log (log w4 ++ [LogInfoRecordingTook (now w4 - now w)]) w4)
          end
      end
  end.
Proof.
  unfold record_step.
  rewrite bind_run. cbn [time_time gets].
  rewrite bind_run. cbn [gets].
  rewrite bind_run. cbn [log_entry modify].
  rewrite bind_run, gather_user_metadata_run.
  cbv zeta. cbn [metadata]. rewrite attrs_without_func_main.
  rewrite bind_run.
  match goal with |- context [gather_version_info ?s ?w0] =>
    destruct (gather_version_info s w0) as [[vi|e] w2] end; [|reflexivity].
  rewrite bind_run.
  destruct (gather_run_env w2) as [[re|e] w3]; [|reflexivity].
  rewrite bind_run. unfold gather_run_info at 1. cbn [bind gets ret].
  rewrite bind_run.
  erewrite record_step_to_db_run by reflexivity.
  cbn [viral_ngs_metadata format].
  destruct (store_fault w3) as [e|]; reflexivity.
Qed.

(** Recording stores one record or none, and none when it raises. *)
Lemma record_step_cases (step_data : StepData ArgVal) (args_dict : Namespace)
    (cmd_module : string) (cmd_name : ArgVal) (step_id run_id : string) (beg_time : Z)
    (enclosing_steps : list string) (cmd_result : PyVal) (cmd_exception_str : option string)
    (w : World) :
  match record_step step_data args_dict cmd_module cmd_name step_id run_id beg_time
                    enclosing_steps cmd_result cmd_exception_str w with
  | (Raise e, w') => db w' = db w
  | (Ok _, w') =>
      exists (w3 : World) (vi : VersionInfo) (re : RunEnv),
        same_store w3 w /\
        db w' = db w ++
          [mkStepData (viral_ngs_metadata step_data) (format step_data)
             (Some (stored_step w3 cmd_result
                      (assembled_step args_dict cmd_module cmd_name step_id run_id beg_time
                         enclosing_steps cmd_result cmd_exception_str w w3 vi re)))]
  end.
Proof.
  rewrite record_step_run. cbv zeta.
  match goal with |- context [gather_version_info ?s ?w0] =>
    pose proof (keeps_db_gather_version_info s w0) as H2;
    destruct (gather_version_info s w0) as [[vi|e] w2] end; simpl in H2; [|exact (proj1 H2)].
  pose proof (keeps_db_gather_run_env w2) as H3.
  destruct (gather_run_env w2) as [[re|e] w3]; simpl in H3.
  2:{ rewrite (proj1 H3). exact (proj1 H2). }
  pose proof (same_store_trans _ _ _ H3 H2) as H.
  destruct (store_fault w3) as [e|]; [exact (proj1 H)|].
  exists w3, vi, re. split; [exact H|].
  cbn [db set_log set_db]. now rewrite (proj1 H).
Qed.

(** ** The whole call *)

Lemma errors_as_warnings_ok (body : M unit) (w : World) :
  (errors_as_warnings body w).1 = Ok tt.
Proof. rewrite errors_as_warnings_run. now destruct (body w) as [[[]|e] w']. Qed.

Lemma decision_ok (cmd_main : CmdMain) (args : Namespace) (w : World)
    (cmd_result : PyVal) (cmd_exception_str : option string) (wy : World) :
  (decision cmd_main args w cmd_result cmd_exception_str wy).1 = Ok tt.
Proof. apply errors_as_warnings_ok. Qed.

Lemma interrupt_is_no_StopIteration (e : Exc) :
  is_interrupt_or_exit e = true -> is_StopIteration e = false.
Proof. unfold is_interrupt_or_exit, is_StopIteration. now destruct (exc_class e). Qed.

Lemma no_Exception_is_no_StopIteration (e : Exc) :
  is_Exception e = false -> is_StopIteration e = false.
Proof. unfold is_Exception, is_StopIteration. now destruct (exc_class e). Qed.

Lemma delivered_other (e : Exc) :
  is_StopIteration e = false -> delivered (Raise e) = Raise e.
Proof. unfold delivered. now intros ->. Qed.

(** The caller of the hook gets what the command returned or raised, but
    for a [StopIteration], in place of which it gets a [RuntimeError]; the
    world it is left with is the one the decision leaves, with the enclosing
    steps restored. *)
Lemma call_cmd_run (cmd_main : CmdMain) (command : Namespace -> M (list PyVal))
    (args : Namespace) (w : World) :
  call_cmd cmd_main command args w =
  match command (replace_file_args args) (world_at_yield cmd_main args w) with
  | (r, wy) =>
      (delivered r,
       leave w (if captured r
                then (decision cmd_main args w (cmd_result_of r) (exception_text_of r) wy).2
                else wy))
  end.
Proof.
  unfold call_cmd. rewrite bind_run, cmd_call_cmd_run. unfold from_call.
  destruct (command (replace_file_args args) (world_at_yield cmd_main args w)) as [[rs|e] wy].
  - unfold unpack_outcome, captured, cmd_result_of, exception_text_of.
    match goal with |- context [decision ?c ?a ?w0 ?r ?s ?w1] =>
      pose proof (decision_ok c a w0 r s w1) as Hok;
      destruct (decision c a w0 r s w1) as [res w']
    end.
    simpl in Hok. subst res. destruct rs; reflexivity.
  - unfold unpack_outcome, captured, cmd_result_of, exception_text_of, delivered.
    unfold raised_in_generator, is_interrupt_or_exit, is_Exception, is_StopIteration.
    destruct e as [[| |n|n|n] msg t]; cbn [exc_class exc_truth negb andb]; try reflexivity.
    all: rewrite bind_run;
      match goal with |- context [decision ?c ?a ?w0 ?r ?s ?w1] =>
        pose proof (decision_ok c a w0 r s w1) as Hok;
        destruct (decision c a w0 r s w1) as [res w']
      end;
      simpl in Hok; subst res; destruct t; reflexivity.
Qed.

(** The records stored once the decision has been taken. *)
Lemma decision_db (cmd_main : CmdMain) (args : Namespace) (w : World)
    (cmd_result : PyVal) (cmd_exception_str : option string) (wy : World) :
  let w' := (decision cmd_main args w cmd_result cmd_exception_str wy).2 in
  if tracking_enabled wy && is_empty (enclosing_at w) then
    match recording cmd_main args w cmd_result cmd_exception_str wy with
    | (Raise e, wr) => w' = set_log (log wr ++ [LogWarning e]) wr /\ db w' = db wy
    | (Ok _, wr) =>
        w' = wr /\
        exists (w3 : World) (vi : VersionInfo) (re : RunEnv),
          same_store w3 wy /\
          db w' = db wy ++
            [mkStepData true VIRAL_NGS_METADATA_FORMAT
               (Some (stored_step w3 cmd_result
                        (assembled_step args (main_module cmd_main)
                           (cmd_name_at cmd_main args) (step_id_at cmd_main args w)
                           (run_id_at w) (now w) (enclosing_at w)
                           cmd_result cmd_exception_str wy w3 vi re)))]
    end
  else w' = wy.
Proof.
  cbv zeta. rewrite decision_run.
  destruct (tracking_enabled wy && is_empty (enclosing_at w)); [|reflexivity].
  unfold recording.
  match goal with |- context [record_step ?a ?b ?c ?d ?e ?f ?g ?h ?i ?j ?k] =>
    pose proof (record_step_cases a b c d e f g h i j k) as Hc;
    destruct (record_step a b c d e f g h i j k) as [[[]|e0] wr]
  end.
  - split; [reflexivity|]. exact Hc.
  - split; [reflexivity|]. exact Hc.
Qed.

Lemma call_cmd_cases (cmd_main : CmdMain) (command : Namespace -> M (list PyVal))
    (args : Namespace) (w : World) :
  let r := (command (replace_file_args args) (world_at_yield cmd_main args w)).1 in
  let wy := (command (replace_file_args args) (world_at_yield cmd_main args w)).2 in
  let w' := (call_cmd cmd_main command args w).2 in
  (call_cmd cmd_main command args w).1 = delivered r /\
  if captured r && tracking_enabled wy && is_empty (enclosing_at w) then
    match recording cmd_main args w (cmd_result_of r) (exception_text_of r) wy with
    | (Raise e, wr) => db w' = db wy /\ log w' = log wr ++ [LogWarning e]
    | (Ok _, wr) =>
        exists (w3 : World) (vi : VersionInfo) (re : RunEnv),
          same_store w3 wy /\
          db w' = db wy ++ [record_of cmd_main args w r wy w3 vi re]
    end
  else db w' = db wy /\ log w' = log wy.
Proof.
  cbv zeta. rewrite call_cmd_run.
  destruct (command (replace_file_args args) (world_at_yield cmd_main args w)) as [r wy].
  cbn [fst snd]. split; [reflexivity|].
  destruct (captured r); cbn [andb]; [|now split].
  pose proof (decision_db cmd_main args w (cmd_result_of r) (exception_text_of r) wy) as Hd.
  cbv zeta in Hd.
  destruct (tracking_enabled wy && is_empty (enclosing_at w)).
  - destruct (recording cmd_main args w (cmd_result_of r) (exception_text_of r) wy)
      as [[[]|e] wr].
    + destruct Hd as [_ Hd]. exact Hd.
    + destruct Hd as [-> Hd]. split; [exact Hd | reflexivity].
  - rewrite Hd. now split.
Qed.

Lemma app_one_neq {A} (l : list A) (x : A) : l ++ [x] <> l.
Proof.
  intros H. apply (f_equal length) in H. rewrite length_app in H. simpl in H. lia.
Qed.

Lemma enclosing_at_yield_nonempty (cmd_main : CmdMain) (args : Namespace) (w : World) :
  enclosing_at (world_at_yield cmd_main args w) <> [].
Proof.
  unfold enclosing_at, world_at_yield.
  destruct (environ w !! "VIRAL_NGS_METADATA_SAVE_STEP_ID_TO") as [path|];
    [destruct (open_error w path)|];
    world_simpl; rewrite lookup_insert_eq; apply split_on_nonempty.
  all: assert (step_id_at cmd_main args w <> "") as Hid
      by (unfold step_id_at; apply join_nonempty; discriminate).
  all: unfold step_id_at, str_of, cmd_name_at, fresh_run_id in Hid.
  all: destruct (environ w !! "VIRAL_NGS_METADATA_STEPS_RUNNING") as [[|c0 s0]|];
    try exact Hid; rewrite app_cons; discriminate.
Qed.

(** ** Which steps are recorded *)

(** C1, as the code has it: the call stores a record exactly when the
    outcome of the command was captured (it returned, or raised an ordinary
    exception), tracking is enabled when the decision is taken, no step
    enclosed this one on entry, and recording itself raised nothing. In
    every other case the stored records are those the command left. The
    command runs with a non-empty sequence of enclosing steps, so that a
    step it starts is never recorded. *)
Theorem recorded_iff_gate_and_recording_succeeds
    (cmd_main : CmdMain) (command : Namespace -> M (list PyVal))
    (args : Namespace) (w : World) :
  let r := (command (replace_file_args args) (world_at_yield cmd_main args w)).1 in
  let wy := (command (replace_file_args args) (world_at_yield cmd_main args w)).2 in
  let w' := (call_cmd cmd_main command args w).2 in
  ((exists rec, db w' = db wy ++ [rec]) <->
   (captured r = true /\ tracking_enabled wy = true /\ enclosing_at w = [] /\
    (recording cmd_main args w (cmd_result_of r) (exception_text_of r) wy).1 = Ok tt)) /\
  ((~ exists rec, db w' = db wy ++ [rec]) -> db w' = db wy) /\
  enclosing_at (world_at_yield cmd_main args w) <> [].
Proof.
  cbv zeta.
  destruct (call_cmd_cases cmd_main command args w) as [_ Hdb]. cbv zeta in Hdb.
  set (r := (command (replace_file_args args) (world_at_yield cmd_main args w)).1) in *.
  set (wy := (command (replace_file_args args) (world_at_yield cmd_main args w)).2) in *.
  set (w' := (call_cmd cmd_main command args w).2) in *.
  split; [|split; [|apply enclosing_at_yield_nonempty]].
  - destruct (captured r); cbn [andb] in Hdb.
    2:{ destruct Hdb as [Hdb _]. split.
        - intros [rec Hrec]. rewrite Hdb in Hrec. symmetry in Hrec.
          now apply app_one_neq in Hrec.
        - intros [? _]. discriminate. }
    destruct (tracking_enabled wy); cbn [andb] in Hdb.
    2:{ destruct Hdb as [Hdb _]. split.
        - intros [rec Hrec]. rewrite Hdb in Hrec. symmetry in Hrec.
          now apply app_one_neq in Hrec.
        - intros (_ & ? & _). discriminate. }
    destruct (enclosing_at w) as [|s l]; cbn [is_empty] in Hdb.
    2:{ destruct Hdb as [Hdb _]. split.
        - intros [rec Hrec]. rewrite Hdb in Hrec. symmetry in Hrec.
          now apply app_one_neq in Hrec.
        - intros (_ & _ & ? & _). discriminate. }
    destruct (recording cmd_main args w (cmd_result_of r) (exception_text_of r) wy)
      as [[[]|e] wr]; cbn [fst].
    + destruct Hdb as (w3 & vi & re & _ & Hdb). split; [now intros _ | intros _; eauto].
    + destruct Hdb as [Hdb _]. split.
      * intros [rec Hrec]. rewrite Hdb in Hrec. symmetry in Hrec.
        now apply app_one_neq in Hrec.
      * intros (_ & _ & _ & ?). discriminate.
  - intros Hno.
    destruct (captured r && tracking_enabled wy && is_empty (enclosing_at w));
      [|exact (proj1 Hdb)].
    destruct (recording cmd_main args w (cmd_result_of r) (exception_text_of r) wy)
      as [[[]|e] wr].
    + destruct Hdb as (w3 & vi & re & _ & Hdb). destruct Hno. eauto.
    + exact (proj1 Hdb).
Qed.

(** C1 as stated fails: a command returns, so that its outcome is captured,
    with tracking enabled and no enclosing step, and yet no record is
    stored, because the store cannot be written. *)
Lemma gate_open_but_nothing_recorded :
  captured (align_ok (replace_file_args align_args)
              (world_at_yield align_main align_args (lab ∅ true (Some disk_full)))).1 = true /\
  tracking_enabled (align_ok (replace_file_args align_args)
                      (world_at_yield align_main align_args (lab ∅ true (Some disk_full)))).2
    = true /\
  enclosing_at (lab ∅ true (Some disk_full)) = [] /\
  db (call_cmd align_main align_ok align_args (lab ∅ true (Some disk_full))).2 =
    db (align_ok (replace_file_args align_args)
          (world_at_yield align_main align_args (lab ∅ true (Some disk_full)))).2 /\
  ~ exists rec,
      db (call_cmd align_main align_ok align_args (lab ∅ true (Some disk_full))).2 =
      db (align_ok (replace_file_args align_args)
            (world_at_yield align_main align_args (lab ∅ true (Some disk_full)))).2 ++ [rec].
Proof.
  repeat (split; [vm_compute; reflexivity|]).
  intros [rec Hrec]. vm_compute in Hrec. discriminate.
Qed.

(** ** The command's outcome *)




(** C9: when the command was interrupted or exited, the call raises that
    same exception at once: nothing is stored and nothing is logged, whether
    or not tracking is enabled and the step is the outermost one. The world
    is the one the command left, with the enclosing steps restored. *)
Theorem interrupt_or_exit_not_recorded
    (cmd_main : CmdMain) (command : Namespace -> M (list PyVal))
    (args : Namespace) (w : World) (e : Exc) (wy : World) :
  command (replace_file_args args) (world_at_yield cmd_main args w) = (Raise e, wy) ->
  is_interrupt_or_exit e = true ->
  call_cmd cmd_main command args w = (Raise e, leave w wy) /\
  db (leave w wy) = db wy /\
  log (leave w wy) = log wy.
Proof.
  intros Hcmd Hint. rewrite call_cmd_run, Hcmd.
  rewrite delivered_other by now apply interrupt_is_no_StopIteration.
  unfold captured. rewrite Hint. cbn [negb andb]. now repeat split.
Qed.

Lemma interrupt_or_exit_not_recorded_witness :
  tracking_enabled (lab ∅ true None) = true /\
  enclosing_at (lab ∅ true None) = [] /\
  (call_cmd align_main align_interrupted align_args (lab ∅ true None)).1 =
    Raise (mkExc KeyboardInterrupt "") /\
  db (call_cmd align_main align_interrupted align_args (lab ∅ true None)).2 = [].
Proof.
  split; [reflexivity|]. split; [reflexivity|].
  pose proof (interrupt_or_exit_not_recorded align_main align_interrupted align_args
                (lab ∅ true None) (mkExc KeyboardInterrupt "")
                (world_at_yield align_main align_args (lab ∅ true None))
                eq_refl eq_refl) as (Hcall & Hdb & _).
  rewrite Hcall. split; [reflexivity | exact Hdb].
Defined.

(** ** What a stored record holds *)

Lemma recorded_inv (cmd_main : CmdMain) (command : Namespace -> M (list PyVal))
    (args : Namespace) (w : World) (rec : StepData Ser) :
  let r := (command (replace_file_args args) (world_at_yield cmd_main args w)).1 in
  let wy := (command (replace_file_args args) (world_at_yield cmd_main args w)).2 in
  db (call_cmd cmd_main command args w).2 = db wy ++ [rec] ->
  exists (w3 : World) (vi : VersionInfo) (re : RunEnv),
    same_store w3 wy /\ rec = record_of cmd_main args w r wy w3 vi re.
Proof.
  cbv zeta. intros Hrec.
  destruct (call_cmd_cases cmd_main command args w) as [_ Hdb]. cbv zeta in Hdb.
  destruct (_ && _ && _).
  - destruct (recording _ _ _ _ _ _) as [[[]|e] wr].
    + destruct Hdb as (w3 & vi & re & Hf & Hdb). exists w3, vi, re. split; [exact Hf|].
      rewrite Hdb in Hrec. apply app_inv_head in Hrec. congruence.
    + destruct Hdb as [Hdb _]. rewrite Hdb in Hrec. symmetry in Hrec.
      now apply app_one_neq in Hrec.
  - destruct Hdb as [Hdb _]. rewrite Hdb in Hrec. symmetry in Hrec.
    now apply app_one_neq in Hrec.
Qed.

Lemma create_run_id_run (t : Z) (w : World) :
  create_run_id (Some t) w = (Ok (fresh_run_id t w), set_uuid_next (S (uuid_next w)) w).
Proof. reflexivity. Qed.

(** C7: the run id of a stored record is the one the environment held under
    [VIRAL_NGS_METADATA_RUN_ID] when the call started, and without one it is
    what [create_run_id] returns for the start time of this call; so calls
    that start with the same run id in their environment record the same
    run id. *)
Theorem run_id_inherited_or_fresh
    (cmd_main : CmdMain) (command : Namespace -> M (list PyVal))
    (args : Namespace) (w : World) (rec : StepData Ser) :
  db (call_cmd cmd_main command args w).2 =
    db (command (replace_file_args args) (world_at_yield cmd_main args w)).2 ++ [rec] ->
  exists st : Step Ser,
    step rec = Some st /\
    (forall rid, environ w !! "VIRAL_NGS_METADATA_RUN_ID" = Some rid -> run_id st = rid) /\
    (environ w !! "VIRAL_NGS_METADATA_RUN_ID" = None ->
     (create_run_id (Some (now w)) w).1 = Ok (run_id st)).
Proof.
  intros Hrec. apply recorded_inv in Hrec as (w3 & vi & re & _ & ->).
  eexists. split; [reflexivity|]. cbn [run_id stored_step assembled_step]. unfold run_id_at.
  split.
  - intros rid ->. reflexivity.
  - intros ->. reflexivity.
Qed.

Lemma run_id_inherited_or_fresh_witness :
  exists st : Step Ser,
    step (align_record (lab (<["VIRAL_NGS_METADATA_RUN_ID" := "run7"]> ∅) true None)
                       (Ok [VStr "done"])) = Some st /\
    run_id st = "run7".
Proof.
  destruct (run_id_inherited_or_fresh align_main align_ok align_args
              (lab (<["VIRAL_NGS_METADATA_RUN_ID" := "run7"]> ∅) true None)
              (align_record (lab (<["VIRAL_NGS_METADATA_RUN_ID" := "run7"]> ∅) true None)
                            (Ok [VStr "done"])))
    as (st & Hst & Hrid & _).
  - vm_compute. reflexivity.
  - exists st. split; [exact Hst|]. apply Hrid. reflexivity.
Defined.

(** C8: every record the call stores has the marker field set and gives
    its format as ["1.0.0"], whatever the command, its arguments and its
    outcome. *)
Theorem stored_record_marker_and_format
    (cmd_main : CmdMain) (command : Namespace -> M (list PyVal))
    (args : Namespace) (w : World) (rec : StepData Ser) :
  db (call_cmd cmd_main command args w).2 =
    db (command (replace_file_args args) (world_at_yield cmd_main args w)).2 ++ [rec] ->
  viral_ngs_metadata rec = true /\
  format rec = "1.0.0" /\
  VIRAL_NGS_METADATA_FORMAT = "1.0.0" /\
  is_Some (step rec).
Proof.
  intros Hrec. apply recorded_inv in Hrec as (w3 & vi & re & _ & ->).
  unfold record_of. cbn [viral_ngs_metadata format step]. repeat split. eauto.
Qed.

Lemma stored_record_marker_and_format_witness :
  db (call_cmd align_main align_fails align_args (lab ∅ true None)).2 =
    [align_record (lab ∅ true None) (Raise (mkExc (ExceptionSubclass "ValueError") "bad input"))] /\
  viral_ngs_metadata
    (align_record (lab ∅ true None) (Raise (mkExc (ExceptionSubclass "ValueError") "bad input")))
  = true /\
  format
    (align_record (lab ∅ true None) (Raise (mkExc (ExceptionSubclass "ValueError") "bad input")))
  = "1.0.0".
Proof.
  assert (db (call_cmd align_main align_fails align_args (lab ∅ true None)).2 =
          db (align_fails (replace_file_args align_args)
                (world_at_yield align_main align_args (lab ∅ true None))).2 ++
          [align_record (lab ∅ true None)
             (Raise (mkExc (ExceptionSubclass "ValueError") "bad input"))]) as Hdb
    by (vm_compute; reflexivity).
  split; [exact Hdb|].
  destruct (stored_record_marker_and_format align_main align_fails align_args
              (lab ∅ true None) _ Hdb) as (Hm & Hf & _).
  split; [exact Hm | exact Hf].
Defined.

Lemma out_files_exist_iff_completed (r : Outcome) :
  negb (truthy_text (exception_text_of r)) = match r with Ok _ => true | Raise _ => false end.
Proof. destruct r as [results|e]; reflexivity. Qed.

Lemma file_infos_same_store (w' w : World) (f : FileArg) (b : bool) (res : PyVal) :
  same_store w' w -> file_infos w' f b res = file_infos w f b res.
Proof.
  intros (_ & Hf & Hd & Hr). unfold file_infos, resolve, hash_and_stat.
  now rewrite Hf, Hd, Hr.
Qed.

Lemma serialized_same_store (w' w : World) (b : bool) (res : PyVal) (v : ArgVal) :
  same_store w' w -> serialized w' b res v = serialized w b res v.
Proof.
  intros H. revert v. fix IH 1. intros [p|f|l|l]; simpl.
  - reflexivity.
  - f_equal. now apply file_infos_same_store.
  - f_equal. induction l as [|x l IHl]; simpl; [reflexivity|]. now rewrite IH, IHl.
  - f_equal. induction l as [|x l IHl]; simpl; [reflexivity|]. now rewrite IH, IHl.
Qed.

(** C3: in a stored record every argument is written with the serialiser of
    [record_step_to_db], for which output files exist exactly when the
    command raised nothing, that is when no exception text was captured. A
    file argument becomes the file information of its files, as they were
    when the command finished: for an input file always its hash, size and
    time (or its absence from disk), for an output file the same when the
    command completed, and otherwise a mark that it does not exist, whatever
    is on disk. *)
Theorem file_arguments_recorded_by_direction
    (cmd_main : CmdMain) (command : Namespace -> M (list PyVal))
    (given : Namespace) (w : World) (rec : StepData Ser) :
  let r := (command (replace_file_args given) (world_at_yield cmd_main given w)).1 in
  let wy := (command (replace_file_args given) (world_at_yield cmd_main given w)).2 in
  let completed := match r with Ok _ => true | Raise _ => false end in
  db (call_cmd cmd_main command given w).2 = db wy ++ [rec] ->
  exists st : Step Ser,
    step rec = Some st /\
    (exception (run_info st) = None <-> completed = true) /\
    (forall k v, k <> "func_main" -> attrs given !! k = Some v ->
                 args st !! k = Some (serialized wy completed (cmd_result_of r) v)) /\
    (forall f, serialized wy completed (cmd_result_of r) (AFileArg f) =
               SFileInfo (file_infos wy f completed (cmd_result_of r))) /\
    (forall f, mode f = In ->
               file_infos wy f completed (cmd_result_of r) =
               map (hash_and_stat wy) (resolve wy f (cmd_result_of r))) /\
    (forall f, mode f = Out -> completed = true ->
               file_infos wy f completed (cmd_result_of r) =
               map (hash_and_stat wy) (resolve wy f (cmd_result_of r))) /\
    (forall f, mode f = Out -> completed = false ->
               file_infos wy f completed (cmd_result_of r) =
               map absent_file (resolve wy f (cmd_result_of r)) /\
               Forall (fun info => file_exists info = false)
                      (file_infos wy f completed (cmd_result_of r))).
Proof.
  cbv zeta. intros Hrec. apply recorded_inv in Hrec as (w3 & vi & re & Hsame & ->).
  set (r := (command (replace_file_args given) (world_at_yield cmd_main given w)).1) in *.
  eexists. split; [reflexivity|].
  cbn [run_info args stored_step assembled_step exception].
  rewrite out_files_exist_iff_completed.
  split; [|split; [|split; [|split; [|split]]]].
  - destruct r; cbn [exception_text_of]; split; congruence.
  - intros k v Hk Hv. rewrite lookup_fmap, lookup_delete_ne by congruence.
    rewrite Hv. cbn [fmap option_fmap option_map]. f_equal.
    now apply serialized_same_store.
  - reflexivity.
  - intros f Hf. unfold file_infos. now rewrite Hf.
  - intros f Hf ->. unfold file_infos. now rewrite Hf.
  - intros f Hf ->. unfold file_infos. rewrite Hf. split; [reflexivity|].
    apply Forall_map, Forall_forall. reflexivity.
Qed.

Lemma file_arguments_recorded_by_direction_witness :
  is_Some (files (lab ∅ true None) !! "b.bam") /\
  exists st : Step Ser,
    step (align_record (lab ∅ true None)
            (Raise (mkExc (ExceptionSubclass "ValueError") "bad input"))) = Some st /\
    args st !! "out_bam" = Some (SFileInfo [mkFileInfo "b.bam" false None None None]) /\
    args st !! "in_bam" =
      Some (SFileInfo [mkFileInfo "a.bam" true (Some "sha:ACGT") (Some 4%nat) (Some 5)]).
Proof.
  split; [vm_compute; eauto|].
  destruct (file_arguments_recorded_by_direction align_main align_fails align_args
              (lab ∅ true None)
              (align_record (lab ∅ true None)
                 (Raise (mkExc (ExceptionSubclass "ValueError") "bad input"))))
    as (st & Hst & _ & Hargs & _).
  - vm_compute. reflexivity.
  - exists st. split; [exact Hst|]. split.
    + rewrite (Hargs "out_bam" (AFileArg out_bam)); [reflexivity | discriminate | reflexivity].
    + rewrite (Hargs "in_bam" (AFileArg in_bam)); [reflexivity | discriminate | reflexivity].
Defined.

(** ** The code version *)

Lemma tag_code_version_never_raises (tag : string) (push_to : option string) (w : World) :
  exists (h : string) (w' : World), tag_code_version tag push_to w = (Ok h, w').
Proof.
  unfold tag_code_version, errors_as_warnings_locals.
  destruct (run_statements _ _ _) as [[h [e|]] w']; eauto.
Qed.

(** An error before the hash of the branch head is read leaves the empty
    string. *)
Lemma tag_code_version_early_error (tag : string) (push_to : option string)
    (w w1 : World) (e : Exc) :
  read_head_hash "" w = (Raise e, w1) ->
  tag_code_version tag push_to w = (Ok "", set_log (log w1 ++ [LogWarning e]) w1).
Proof.
  intros H. unfold tag_code_version, errors_as_warnings_locals. simpl. now rewrite H.
Qed.

(** C6, where the code departs from it: in a checkout with local changes
    and a repository to push to, [save_dirty_repo] raises [NameError]; the
    error is logged and does not propagate, but the value returned is the
    hash of the branch head read before, not the empty string. *)
Theorem tag_code_version_late_error_keeps_hash :
  (tag_code_version "cmd_step1" (Some "/md/code_repo") dirty_checkout).1 = Ok "abc123" /\
  log (tag_code_version "cmd_step1" (Some "/md/code_repo") dirty_checkout).2 =
    [LogWarning (NameError "tagb")] /\
  (save_dirty_repo "abc123" "cmd_step1" (Some "/md/code_repo") dirty_checkout).1 =
    Raise (NameError "tagb").
Proof. vm_compute. repeat split; reflexivity. Qed.

(** * Further properties of the module *)

(** ** Recording changes the log and the store only *)

Lemma same_but_records_refl (w : World) : same_but_records w w.
Proof. reflexivity. Qed.

Lemma same_but_records_trans (w1 w2 w3 : World) :
  same_but_records w1 w2 -> same_but_records w2 w3 -> same_but_records w1 w3.
Proof. unfold same_but_records. congruence. Qed.

Lemma same_but_records_set_log (l : list LogEntry) (w : World) :
  same_but_records (set_log l w) w.
Proof. reflexivity. Qed.

Lemma same_but_records_set_db (d : list (StepData Ser)) (w : World) :
  same_but_records (set_db d w) w.
Proof. reflexivity. Qed.

Lemma same_but_records_popd (d : string) (w w2 : World) :
  same_but_records w2 (set_cwd d w) -> same_but_records (set_cwd (cwd w) w2) w.
Proof.
  unfold same_but_records, forget_records. destruct w, w2. world_simpl.
  intros H. injection H as -> _ -> -> -> -> -> -> -> -> -> -> -> -> -> -> -> -> -> -> -> -> -> ->.
  reflexivity.
Qed.

Lemma quiet_ret {A} (a : A) : quiet (ret a).
Proof. intros w. reflexivity. Qed.

Lemma quiet_raise {A} (e : Exc) : quiet (@raise A e).
Proof. intros w. reflexivity. Qed.

Lemma quiet_gets {A} (f : World -> A) : quiet (gets f).
Proof. intros w. reflexivity. Qed.

Lemma quiet_bind {A B} (m : M A) (k : A -> M B) :
  quiet m -> (forall a, quiet (k a)) -> quiet (bind m k).
Proof.
  intros Hm Hk w. unfold bind. specialize (Hm w).
  destruct (m w) as [[a|e] w1]; simpl in *; [|exact Hm].
  exact (same_but_records_trans _ _ _ (Hk a w1) Hm).
Qed.

Lemma quiet_if {A} (b : bool) (m1 m2 : M A) :
  quiet m1 -> quiet m2 -> quiet (if b then m1 else m2).
Proof. now destruct b. Qed.

Lemma quiet_log_entry (e : LogEntry) : quiet (log_entry e).
Proof. intros w. reflexivity. Qed.

Lemma quiet_slurp_file (p : string) : quiet (slurp_file p).
Proof. intros w. unfold slurp_file. destruct (files w !! p); reflexivity. Qed.

Lemma quiet_shell (cmd : string) : quiet (_shell_cmd cmd).
Proof. intros w. reflexivity. Qed.

Lemma quiet_shell_unchecked (cmd : string) : quiet (_shell_cmd_unchecked cmd).
Proof. intros w. unfold _shell_cmd_unchecked. destruct (shell w cmd); reflexivity. Qed.

Lemma quiet_index {A} (l : list A) (i : nat) : quiet (index l i).
Proof. unfold index. destruct (l !! i); [apply quiet_ret | apply quiet_raise]. Qed.

Lemma quiet_pushd_popd {A} (d : string) (body : M A) :
  quiet body -> quiet (pushd_popd d body).
Proof.
  intros Hb w. unfold pushd_popd. specialize (Hb (set_cwd d w)).
  destruct (body (set_cwd d w)) as [r w2]. simpl in *.
  now apply (same_but_records_popd d).
Qed.

Lemma run_statements_quiet {S} (stmts : list (S -> M S)) :
  Forall (fun stmt => forall s, quiet (stmt s)) stmts ->
  forall s w, same_but_records (run_statements stmts s w).2 w.
Proof.
  induction 1 as [|stmt rest Hstmt _ IH]; intros s w; simpl; [reflexivity|].
  specialize (Hstmt s w). destruct (stmt s w) as [[s'|e] w']; simpl in *.
  - exact (same_but_records_trans _ _ _ (IH s' w') Hstmt).
  - exact Hstmt.
Qed.

Lemma quiet_errors_as_warnings_locals {S} (stmts : list (S -> M S)) (s : S) :
  Forall (fun stmt => forall s, quiet (stmt s)) stmts ->
  quiet (errors_as_warnings_locals stmts s).
Proof.
  intros H w. unfold errors_as_warnings_locals.
  pose proof (run_statements_quiet stmts H s w) as Hq.
  destruct (run_statements stmts s w) as [[s' [e|]] w']; simpl in *; [|exact Hq].
  exact (same_but_records_trans _ _ _ (same_but_records_set_log _ w') Hq).
Qed.

Lemma quiet_errors_as_warnings (body : M unit) :
  quiet body -> quiet (errors_as_warnings body).
Proof.
  intros H. apply quiet_errors_as_warnings_locals.
  constructor; [intros _; exact H | constructor].
Qed.

Create HintDb quiet.
#[local] Hint Resolve quiet_ret quiet_raise quiet_gets quiet_log_entry quiet_slurp_file
  quiet_shell quiet_shell_unchecked quiet_index : quiet.

Ltac quiet :=
  repeat first
    [ progress intros
    | apply quiet_bind
    | apply quiet_if
    | apply quiet_pushd_popd
    | apply quiet_errors_as_warnings
    | solve [auto with quiet]
    | match goal with
      | |- quiet (match ?x with _ => _ end) => destruct x
      end ].

Lemma quiet_save_dirty_repo (code_hash tag : string) (push_to : option string) :
  quiet (save_dirty_repo code_hash tag push_to).
Proof. unfold save_dirty_repo. quiet. Qed.

Lemma quiet_tag_code_version (tag : string) (push_to : option string) :
  quiet (tag_code_version tag push_to).
Proof.
  unfold tag_code_version. apply quiet_errors_as_warnings_locals.
  constructor; [|constructor; [|constructor]]; intros s.
  - unfold read_head_hash, isfile. quiet.
  - unfold tag_if_detailed. quiet.
Qed.

Lemma quiet_read {A} (f : World -> Result A) : quiet (fun w => (f w, w)).
Proof. intros w. reflexivity. Qed.

Lemma quiet_gather_version_info (step_id : string) : quiet (gather_version_info step_id).
Proof.
  unfold gather_version_info, isdir. quiet.
  - apply quiet_tag_code_version.
  - apply (quiet_read version).
Qed.

Lemma quiet_gather_run_env : quiet gather_run_env.
Proof.
  unfold gather_run_env. quiet.
  apply (quiet_read cpu_count).
Qed.

(** What two worlds that differ in log and store only have in common. *)
Lemma same_but_records_fields (w' w : World) :
  same_but_records w' w ->
  environ w' = environ w /\ cwd w' = cwd w /\ user w' = user w /\ argv w' = argv w /\
  now w' = now w /\ files w' = files w /\ shell w' = shell w /\
  sys_platform w' = sys_platform w /\ fqdn w' = fqdn w /\ cpu_count w' = cpu_count w /\
  project_path w' = project_path w /\ realpath w' = realpath w /\ version w' = version w /\
  digest w' = digest w /\ result_fnames w' = result_fnames w /\
  tracking_enabled w' = tracking_enabled w /\ store_fault w' = store_fault w /\
  py_str w' = py_str w.
Proof.
  unfold same_but_records, forget_records. destruct w', w. world_simpl.
  intros H. injection H as -> -> -> -> -> -> -> -> -> -> -> -> -> -> -> -> -> -> -> -> -> -> -> ->.
  now repeat split.
Qed.

Lemma gather_run_env_run (w : World) :
  gather_run_env w =
  match cpu_count w with
  | Raise e => (Raise e, w)
  | Ok n =>
      match environ w !! "VIRAL_NGS_METADATA_DETAILED_ENV" with
      | None =>
          (Ok (mkRunEnv "" (sys_platform w) n (fqdn w) (user w) (cwd w) "" false
                        (dict_subset (environ w) env_vars_to_save)), w)
      | Some _ =>
          match shell w "conda env export" with
          | Raise e => (Raise e, w)
          | Ok conda =>
              (Ok (mkRunEnv "" (sys_platform w) n (fqdn w) (user w) (cwd w) conda true
                            (dict_subset (environ w) env_vars_to_save)), w)
          end
      end
  end.
Proof.
  unfold gather_run_env, get_conda_env, _shell_cmd, bind, gets, ret. cbv beta iota.
  destruct (cpu_count w) as [n|e]; [|reflexivity]. cbv beta iota.
  destruct (environ w !! "VIRAL_NGS_METADATA_DETAILED_ENV") as [x|] eqn:HD; cbn.
  - destruct (shell w "conda env export"); [|reflexivity]. cbn. now rewrite HD.
  - now rewrite HD.
Qed.

Lemma gather_version_info_run (step_id : string) (w : World) :
  gather_version_info step_id w =
  let push_to :=
    if bool_decide (Py.path_join (metadata_dir w) "code_repo" ∈ dirs w)
    then Some (Py.path_join (metadata_dir w) "code_repo") else None in
  match tag_code_version ("cmd_" +:+ step_id) push_to w with
  | (Raise e, w2) => (Raise e, w2)
  | (Ok h, w2) =>
      match version w2 with
      | Raise e => (Raise e, w2)
      | Ok v => (Ok (mkVersionInfo v (project_path w2) (realpath w2 (project_path w2)) h), w2)
      end
  end.
Proof.
  unfold gather_version_info, isdir, bind, gets, ret. cbv zeta.
  destruct (tag_code_version _ _ w) as [[h|e] w2]; [|reflexivity].
  destruct (version w2); reflexivity.
Qed.

Lemma quiet_record_step (step_data : StepData ArgVal) (args_dict : Namespace)
    (cmd_module : string) (cmd_name : ArgVal) (step_id run_id : string) (beg_time : Z)
    (enclosing_steps : list string) (cmd_result : PyVal) (cmd_exception_str : option string) :
  quiet (record_step step_data args_dict cmd_module cmd_name step_id run_id beg_time
                     enclosing_steps cmd_result cmd_exception_str).
Proof.
  intros w. rewrite record_step_run. cbv zeta.
  match goal with |- context [gather_version_info ?s ?w0] =>
    pose proof (quiet_gather_version_info s w0) as H2;
    destruct (gather_version_info s w0) as [[vi|e] w2] end; simpl in H2.
  2:{ exact (same_but_records_trans _ _ _ H2 (same_but_records_set_log _ w)). }
  pose proof (quiet_gather_run_env w2) as H3.
  destruct (gather_run_env w2) as [[re|e] w3]; simpl in H3.
  all: pose proof (same_but_records_trans _ _ _ H3
                     (same_but_records_trans _ _ _ H2 (same_but_records_set_log _ w))) as H.
  - destruct (store_fault w3); simpl; [exact H|].
    refine (same_but_records_trans _ _ _ (same_but_records_set_log _ _) _).
    exact (same_but_records_trans _ _ _ (same_but_records_set_db _ w3) H).
  - exact H.
Qed.

(** The gate was open for every record that was stored, and the record is
    the one assembled from what was gathered when the command had
    finished. *)
Lemma recorded_inv_strong (cmd_main : CmdMain) (command : Namespace -> M (list PyVal))
    (args : Namespace) (w : World) (rec : StepData Ser) :
  let r := (command (replace_file_args args) (world_at_yield cmd_main args w)).1 in
  let wy := (command (replace_file_args args) (world_at_yield cmd_main args w)).2 in
  db (call_cmd cmd_main command args w).2 = db wy ++ [rec] ->
  captured r = true /\ tracking_enabled wy = true /\ enclosing_at w = [] /\
  exists (w2 w3 : World) (vi : VersionInfo) (re : RunEnv),
    gather_version_info (step_id_at cmd_main args w)
      (set_log (log wy ++ [LogInfoFinished (main_module cmd_main)
                             (str_of wy (cmd_name_at cmd_main args))
                             (now wy - now w) (exception_text_of r)]) wy) = (Ok vi, w2) /\
    gather_run_env w2 = (Ok re, w3) /\
    same_but_records w3 wy /\
    rec = record_of cmd_main args w r wy w3 vi re.
Proof.
  cbv zeta. rewrite call_cmd_run.
  destruct (command (replace_file_args args) (world_at_yield cmd_main args w)) as [r wy].
  cbn [fst snd]. intros Hrec.
  assert (forall l : list (StepData Ser), l = db wy -> l <> db wy ++ [rec]) as Hne.
  { intros l -> H. symmetry in H. now apply app_one_neq in H. }
  change (db (leave w ?x)) with (db x) in Hrec.
  destruct (captured r); [|now apply Hne in Hrec].
  rewrite decision_run in Hrec.
  destruct (tracking_enabled wy); cbn [andb] in Hrec; [|now apply Hne in Hrec].
  destruct (enclosing_at w) as [|s l] eqn:Henc; cbn [is_empty] in Hrec;
    [|now apply Hne in Hrec].
  repeat (split; [reflexivity|]).
  unfold recording in Hrec. rewrite record_step_run in Hrec. cbv zeta in Hrec.
  match type of Hrec with context [gather_version_info ?s ?w0] =>
    pose proof (quiet_gather_version_info s w0) as H2;
    pose proof (keeps_db_gather_version_info s w0) as K2;
    destruct (gather_version_info s w0) as [[vi|e] w2] eqn:E2 end; simpl in H2, K2.
  2:{ apply Hne in Hrec; [easy|]. exact (proj1 K2). }
  pose proof (quiet_gather_run_env w2) as H3.
  pose proof (keeps_db_gather_run_env w2) as K3.
  destruct (gather_run_env w2) as [[re|e] w3] eqn:E3; simpl in H3, K3.
  2:{ apply Hne in Hrec; [easy|]. cbn [snd db set_log].
      rewrite (proj1 K3). exact (proj1 K2). }
  destruct (store_fault w3).
  { apply Hne in Hrec; [easy|]. cbn [snd db set_log].
    rewrite (proj1 K3). exact (proj1 K2). }
  exists w2, w3, vi, re.
  split; [first [exact E2 | reflexivity]|]. split; [first [exact E3 | reflexivity]|]. split.
  - exact (same_but_records_trans _ _ _ H3
             (same_but_records_trans _ _ _ H2 (same_but_records_set_log _ wy))).
  - cbn [snd db set_log set_db] in Hrec. rewrite (proj1 K3), (proj1 K2) in Hrec.
    cbn [db set_log] in Hrec. apply app_inv_head in Hrec.
    injection Hrec as <-. unfold record_of. now rewrite Henc.
Qed.

(** ** [unpack_outcome] *)

(** X1: an exception raised by the body of the [with] block leaves
    [unpack_outcome] as it is, in place of the exception of the command. *)
Theorem unpack_outcome_body_error_replaces_outcome
    (outcome : Outcome) (body : PyVal * option Exc * option string -> M unit)
    (w w2 : World) (e2 : Exc) :
  captured outcome = true ->
  body (cmd_result_of outcome, cmd_exception_of outcome, exception_text_of outcome) w
    = (Raise e2, w2) ->
  unpack_outcome outcome body w = (Raise e2, w2).
Proof.
  intros Hc Hb. unfold unpack_outcome.
  destruct outcome as [results|e]; cbn [cmd_result_of cmd_exception_of exception_text_of] in Hb.
  - destruct results; exact Hb.
  - unfold captured in Hc. destruct (is_interrupt_or_exit e); [discriminate|].
    destruct (is_Exception e); [|discriminate].
    rewrite bind_run, Hb. reflexivity.
Qed.

Lemma unpack_outcome_body_error_replaces_outcome_witness :
  unpack_outcome (Raise (mkExc (ExceptionSubclass "ValueError") "bad input"))
                 (fun _ => raise disk_full) (lab ∅ true None)
  = (Raise disk_full, lab ∅ true None).
Proof.
  apply unpack_outcome_body_error_replaces_outcome; reflexivity.
Defined.

(** X2: an exception of the command that is no [Exception] (as
    [GeneratorExit]) is handled like an interrupt: the call raises it, and
    stores and logs nothing, whether or not tracking is enabled. *)
Theorem base_exception_not_recorded
    (cmd_main : CmdMain) (command : Namespace -> M (list PyVal))
    (args : Namespace) (w : World) (e : Exc) (wy : World) :
  command (replace_file_args args) (world_at_yield cmd_main args w) = (Raise e, wy) ->
  is_Exception e = false ->
  call_cmd cmd_main command args w = (Raise e, leave w wy).
Proof.
  intros Hcmd He. rewrite call_cmd_run, Hcmd.
  rewrite delivered_other by now apply no_Exception_is_no_StopIteration.
  unfold captured. rewrite He, andb_false_r. reflexivity.
Qed.

Lemma base_exception_not_recorded_witness :
  (call_cmd align_main align_closed align_args (lab ∅ true None)).1 = Raise generator_exit /\
  db (call_cmd align_main align_closed align_args (lab ∅ true None)).2 = [] /\
  log (call_cmd align_main align_closed align_args (lab ∅ true None)).2 = [].
Proof.
  rewrite (base_exception_not_recorded align_main align_closed align_args (lab ∅ true None)
             generator_exit (world_at_yield align_main align_args (lab ∅ true None))
             eq_refl eq_refl).
  repeat split.
Defined.

(** ** Steps that are not recorded *)

(** X3: with tracking disabled when the command has finished, or with a
    step enclosing this one, the call does nothing after the command: the
    caller gets the outcome of the command as [unpack_outcome] delivers it
    (the result, or the exception, a [StopIteration] as a [RuntimeError]),
    and the world is the one the command left, with the enclosing steps put
    back. Nothing is gathered, hashed, stored or logged. *)
Theorem skipped_step_does_no_recording
    (cmd_main : CmdMain) (command : Namespace -> M (list PyVal))
    (args : Namespace) (w : World) :
  let r := (command (replace_file_args args) (world_at_yield cmd_main args w)).1 in
  let wy := (command (replace_file_args args) (world_at_yield cmd_main args w)).2 in
  tracking_enabled wy = false \/ enclosing_at w <> [] ->
  call_cmd cmd_main command args w = (delivered r, leave w wy).
Proof.
  cbv zeta. intros Hskip. rewrite call_cmd_run.
  destruct (command (replace_file_args args) (world_at_yield cmd_main args w)) as [r wy].
  cbn [fst snd] in *. destruct (captured r); [|reflexivity].
  rewrite decision_run.
  destruct Hskip as [-> | Henc]; [reflexivity|].
  destruct (enclosing_at w); [congruence|]. now rewrite andb_false_r.
Qed.

Lemma skipped_step_does_no_recording_witness :
  call_cmd align_main align_ok align_args (lab ∅ false None) =
  (Ok [VStr "done"],
   leave (lab ∅ false None) (world_at_yield align_main align_args (lab ∅ false None))) /\
  call_cmd align_main align_stops align_args (lab ∅ false None) =
  (Raise (RuntimeError "generator raised StopIteration"),
   leave (lab ∅ false None) (world_at_yield align_main align_args (lab ∅ false None))).
Proof.
  split.
  - apply (skipped_step_does_no_recording align_main align_ok align_args (lab ∅ false None)).
    left. reflexivity.
  - apply (skipped_step_does_no_recording align_main align_stops align_args (lab ∅ false None)).
    left. reflexivity.
Defined.

(** ** More of what a stored record holds *)

(** X4: the [enclosing_steps] of a stored record is always the empty
    sequence: a record is written for outermost steps only. *)
Theorem stored_record_has_no_enclosing_steps
    (cmd_main : CmdMain) (command : Namespace -> M (list PyVal))
    (args : Namespace) (w : World) (rec : StepData Ser) :
  db (call_cmd cmd_main command args w).2 =
    db (command (replace_file_args args) (world_at_yield cmd_main args w)).2 ++ [rec] ->
  exists st : Step Ser, step rec = Some st /\ enclosing_steps st = [].
Proof.
  intros Hrec.
  apply recorded_inv_strong in Hrec as (_ & _ & Henc & w2 & w3 & vi & re & _ & _ & _ & ->).
  eexists. split; [reflexivity|]. exact Henc.
Qed.

Lemma stored_record_has_no_enclosing_steps_witness :
  exists st : Step Ser,
    step (align_record (lab ∅ true None) (Ok [VStr "done"])) = Some st /\
    enclosing_steps st = [].
Proof.
  apply (stored_record_has_no_enclosing_steps align_main align_ok align_args (lab ∅ true None)).
  vm_compute. reflexivity.
Defined.

(** X5: the run information of a stored record: the clock when the call
    started, the clock when the command had finished, their difference, the
    text of the exception the command raised (none when it returned), and
    the arguments of the process. *)
Theorem stored_run_info
    (cmd_main : CmdMain) (command : Namespace -> M (list PyVal))
    (args : Namespace) (w : World) (rec : StepData Ser) :
  let r := (command (replace_file_args args) (world_at_yield cmd_main args w)).1 in
  let wy := (command (replace_file_args args) (world_at_yield cmd_main args w)).2 in
  db (call_cmd cmd_main command args w).2 = db wy ++ [rec] ->
  exists st : Step Ser,
    step rec = Some st /\
    run_info st = mkRunInfo (now w) (now wy) (now wy - now w) (exception_text_of r) (argv wy) /\
    duration (run_info st) = end_time (run_info st) - beg_time (run_info st).
Proof.
  cbv zeta. intros Hrec.
  apply recorded_inv_strong in Hrec as (_ & _ & _ & w2 & w3 & vi & re & _ & _ & Hsame & ->).
  apply same_but_records_fields in Hsame as (_ & _ & _ & Hargv & _).
  eexists. split; [reflexivity|].
  cbn [run_info stored_step assembled_step]. rewrite Hargv. split; reflexivity.
Qed.

Lemma stored_run_info_witness :
  exists st : Step Ser,
    step (align_record (lab ∅ true None)
            (Raise (mkExc (ExceptionSubclass "ValueError") "bad input"))) = Some st /\
    exception (run_info st) =
      Some (format_exc (mkExc (ExceptionSubclass "ValueError") "bad input")) /\
    duration (run_info st) = 0.
Proof.
  destruct (stored_run_info align_main align_fails align_args (lab ∅ true None)
              (align_record (lab ∅ true None)
                 (Raise (mkExc (ExceptionSubclass "ValueError") "bad input"))))
    as (st & Hst & Hinfo & _).
  - vm_compute. reflexivity.
  - exists st. split; [exact Hst|]. rewrite Hinfo. split; reflexivity.
Defined.

(** X6: the recorded arguments are the attributes of the parsed arguments
    without [metadata], which [gather_user_metadata] takes out of them, and
    without [func_main]: these two names are never recorded, every other
    name is recorded exactly when it is an attribute. *)
Theorem func_main_not_recorded
    (cmd_main : CmdMain) (command : Namespace -> M (list PyVal))
    (given : Namespace) (w : World) (rec : StepData Ser) :
  db (call_cmd cmd_main command given w).2 =
    db (command (replace_file_args given) (world_at_yield cmd_main given w)).2 ++ [rec] ->
  exists st : Step Ser,
    step rec = Some st /\
    args st !! "func_main" = None /\
    args st !! "metadata" = None /\
    (forall k, k <> "func_main" -> k <> "metadata" ->
               (is_Some (args st !! k) <-> is_Some (named given !! k))).
Proof.
  intros Hrec. apply recorded_inv in Hrec as (w3 & vi & re & _ & ->).
  eexists. split; [reflexivity|]. cbn [args stored_step assembled_step]. split; [|split].
  - now rewrite lookup_fmap, lookup_delete_eq.
  - rewrite lookup_fmap, lookup_delete_ne by discriminate.
    now rewrite attrs_lookup_metadata.
  - intros k Hk Hm. rewrite lookup_fmap, lookup_delete_ne by congruence.
    unfold attrs. rewrite lookup_delete_ne by congruence.
    now rewrite fmap_is_Some.
Qed.

Lemma func_main_not_recorded_witness :
  is_Some (named parsed_args !! "func_main") /\
  is_Some (metadata parsed_args) /\
  exists st : Step Ser,
    step (parsed_record (lab ∅ true None) (Ok [VStr "done"])) = Some st /\
    args st !! "func_main" = None /\
    args st !! "metadata" = None /\
    is_Some (args st !! "in_bam").
Proof.
  split; [vm_compute; eauto|]. split; [vm_compute; eauto|].
  destruct (func_main_not_recorded align_main align_ok parsed_args (lab ∅ true None)
              (parsed_record (lab ∅ true None) (Ok [VStr "done"])))
    as (st & Hst & Hnone & Hmeta & Hdom).
  - vm_compute. reflexivity.
  - exists st. split; [exact Hst|]. split; [exact Hnone|]. split; [exact Hmeta|].
    apply Hdom; [discriminate | discriminate |]. vm_compute. eauto.
Defined.

(** ** Nested steps *)

(** X7: when the command of a step is itself an intercepted call, the inner
    call stores nothing, and the outer call stores at most one record, with
    the step id of the outer step. *)
Theorem nested_step_recorded_once
    (outer inner : CmdMain) (command : Namespace -> M (list PyVal))
    (args1 args2 : Namespace) (w : World) :
  let w1 := world_at_yield outer args1 w in
  let nested := fun _ : Namespace => call_cmd inner command args2 in
  let wc := (command (replace_file_args args2) (world_at_yield inner args2 w1)).2 in
  db (nested (replace_file_args args1) w1).2 = db wc /\
  (db (call_cmd outer nested args1 w).2 = db wc \/
   exists rec st,
     db (call_cmd outer nested args1 w).2 = db wc ++ [rec] /\
     step rec = Some st /\
     step_id st = step_id_at outer args1 w).
Proof.
  cbv zeta.
  assert (db (call_cmd inner command args2 (world_at_yield outer args1 w)).2 =
          db (command (replace_file_args args2)
                (world_at_yield inner args2 (world_at_yield outer args1 w))).2) as Hin.
  { destruct (call_cmd_cases inner command args2 (world_at_yield outer args1 w)) as [_ H].
    cbv zeta in H.
    destruct (enclosing_at (world_at_yield outer args1 w)) eqn:Henc.
    - now apply enclosing_at_yield_nonempty in Henc.
    - rewrite andb_false_r in H. exact (proj1 H). }
  split; [exact Hin|].
  destruct (call_cmd_cases outer (fun _ : Namespace => call_cmd inner command args2) args1 w)
    as [_ H].
  cbv zeta in H. rewrite Hin in H.
  destruct (_ && _ && _).
  - destruct (recording _ _ _ _ _ _) as [[[]|e] wr].
    + destruct H as (w3 & vi & re & _ & H). right. eexists _, _.
      split; [exact H|]. split; reflexivity.
    + left. exact (proj1 H).
  - left. exact (proj1 H).
Qed.

(** ** Identifiers *)

(** X8: the step id of a stored record is a stamp, the module of the
    command and the name of the command, joined by two underscores; the
    stamp is what a second call of [create_run_id] for the start time
    returns, at most 210 characters; the module and the name are not cut. *)
Theorem step_id_structure
    (cmd_main : CmdMain) (command : Namespace -> M (list PyVal))
    (args : Namespace) (w : World) (rec : StepData Ser) :
  db (call_cmd cmd_main command args w).2 =
    db (command (replace_file_args args) (world_at_yield cmd_main args w)).2 ++ [rec] ->
  exists (st : Step Ser) (stamp : string),
    step rec = Some st /\
    step_id st = stamp +:+ "__" +:+ main_module cmd_main +:+ "__" +:+
                 str_of w (cmd_name_at cmd_main args) /\
    (create_run_id (Some (now w)) (create_run_id (Some (now w)) w).2).1 = Ok stamp /\
    (String.length stamp <= 210)%nat.
Proof.
  intros Hrec. apply recorded_inv in Hrec as (w3 & vi & re & _ & ->).
  eexists _, (fresh_run_id (now w) (set_uuid_next (S (uuid_next w)) w)).
  split; [reflexivity|]. split; [reflexivity|]. split; [reflexivity|].
  apply length_slice_to.
Qed.

Lemma step_id_structure_witness :
  exists (st : Step Ser) (stamp : string),
    step (parsed_record (lab ∅ true None) (Ok [VStr "done"])) = Some st /\
    step_id st = stamp +:+ "__read_utils__align_bam".
Proof.
  destruct (step_id_structure align_main align_ok parsed_args (lab ∅ true None)
              (parsed_record (lab ∅ true None) (Ok [VStr "done"])))
    as (st & stamp & Hst & Hid & _).
  - vm_compute. reflexivity.
  - exists st, stamp. split; [exact Hst|]. exact Hid.
Defined.



(** X10: after [set_run_id], the environment holds a run id of at most 210
    characters, and a step that starts from there is recorded with that run
    id. *)
Theorem set_run_id_is_recorded
    (cmd_main : CmdMain) (command : Namespace -> M (list PyVal))
    (args : Namespace) (w : World) (rec : StepData Ser) :
  let w1 := (set_run_id w).2 in
  db (call_cmd cmd_main command args w1).2 =
    db (command (replace_file_args args) (world_at_yield cmd_main args w1)).2 ++ [rec] ->
  exists (st : Step Ser) (rid : string),
    (create_run_id None w).1 = Ok rid /\
    (set_run_id w).1 = Ok tt /\
    environ w1 !! "VIRAL_NGS_METADATA_RUN_ID" = Some rid /\
    (String.length rid <= 210)%nat /\
    step rec = Some st /\
    run_id st = rid.
Proof.
  cbv zeta. intros Hrec. apply recorded_inv in Hrec as (w3 & vi & re & _ & ->).
  eexists _, (fresh_run_id (now w) w).
  split; [reflexivity|]. split; [reflexivity|].
  assert (environ (set_run_id w).2 !! "VIRAL_NGS_METADATA_RUN_ID" =
          Some (fresh_run_id (now w) w)) as Henv.
  { unfold set_run_id. rewrite bind_run. unfold create_run_id.
    cbn [bind gets uuid4 ret modify snd]. world_simpl. apply lookup_insert_eq. }
  split; [exact Henv|]. split; [apply length_slice_to|].
  split; [reflexivity|].
  cbn [run_id stored_step assembled_step]. unfold run_id_at. now rewrite Henv.
Qed.

(** ** Argument normalisation, again *)

Lemma _replace_file_args_idempotent (v : ArgVal) :
  _replace_file_args (_replace_file_args v) = _replace_file_args v.
Proof.
  revert v. fix IH 1. intros [p|f|l|l]; simpl; try reflexivity.
  - f_equal. induction l as [|x l IHl]; simpl; [reflexivity|]. now rewrite IH, IHl.
  - f_equal. induction l as [|x l IHl]; simpl; [reflexivity|]. now rewrite IH, IHl.
Qed.

(** X11: normalising the arguments a second time changes nothing. *)
Theorem replace_file_args_idempotent (args : Namespace) :
  replace_file_args (replace_file_args args) = replace_file_args args.
Proof.
  unfold replace_file_args at 1 3. cbn [metadata]. f_equal.
  rewrite attrs_replace_file_args, <- map_fmap_compose. apply map_fmap_ext.
  intros k v _. apply _replace_file_args_idempotent.
Qed.

Lemma set_run_id_is_recorded_witness :
  exists (st : Step Ser) (rid : string),
    environ (set_run_id (lab ∅ true None)).2 !! "VIRAL_NGS_METADATA_RUN_ID" = Some rid /\
    step (align_record (set_run_id (lab ∅ true None)).2 (Ok [VStr "done"])) = Some st /\
    run_id st = rid.
Proof.
  destruct (set_run_id_is_recorded align_main align_ok align_args (lab ∅ true None)
              (align_record (set_run_id (lab ∅ true None)).2 (Ok [VStr "done"])))
    as (st & rid & _ & _ & Henv & _ & Hst & Hrid).
  - vm_compute. reflexivity.
  - exists st, rid. repeat split; assumption.
Defined.

(** ** The code version, case by case *)

Lemma read_head_hash_run (code_hash : string) (w : World) :
  read_head_hash code_hash w =
  match files w !! git_path w "HEAD" with
  | None => (Ok code_hash, w)
  | Some head =>
      if Py.startswith "ref:" (Py.strip (content head)) then
        match Py.split (Py.strip (content head)) !! 1%nat with
        | None => (Raise IndexError, w)
        | Some ref_name =>
            match files w !! git_path w ref_name with
            | None => (Raise (IOError (git_path w ref_name)), w)
            | Some tip => (Ok (Py.strip (content tip)), w)
            end
        end
      else (Ok code_hash, w)
  end.
Proof.
  unfold read_head_hash, git_path, isfile, slurp_file, index, bind, gets, ret, raise.
  cbv beta iota zeta.
  destruct (files w !! Py.path_join (Py.path_join (project_path w) ".git") "HEAD")
    as [head|] eqn:Hhead; cbn -[Py.path_join Py.strip Py.startswith Py.split].
  2:{ reflexivity. }
  rewrite Hhead.
  destruct (Py.startswith "ref:" (Py.strip (content head))); [|reflexivity].
  destruct (Py.split (Py.strip (content head)) !! 1%nat) as [ref_name|]; [|reflexivity].
  destruct (files w !! Py.path_join (Py.path_join (project_path w) ".git") ref_name);
    reflexivity.
Qed.

Lemma quiet_read_head_hash_env (w : World) :
  environ (read_head_hash "" w).2 = environ w.
Proof.
  rewrite read_head_hash_run.
  destruct (files w !! git_path w "HEAD") as [head|]; [|reflexivity].
  destruct (Py.startswith _ _); [|reflexivity].
  destruct (_ !! 1%nat); [|reflexivity].
  destruct (files w !! _); reflexivity.
Qed.

Lemma tag_code_version_plain (tag : string) (push_to : option string) (w : World) :
  environ w !! "VIRAL_NGS_METADATA_DETAILED_ENV" = None ->
  tag_code_version tag push_to w =
  match read_head_hash "" w with
  | (Ok h, w1) => (Ok h, w1)
  | (Raise e, w1) => (Ok "", set_log (log w1 ++ [LogWarning e]) w1)
  end.
Proof.
  intros Hd. unfold tag_code_version, errors_as_warnings_locals. cbn [run_statements].
  pose proof (quiet_read_head_hash_env w) as Henv.
  destruct (read_head_hash "" w) as [[h|e] w1]; [|reflexivity].
  unfold tag_if_detailed. rewrite bind_run. cbn [gets].
  simpl in Henv. rewrite Henv, Hd. reflexivity.
Qed.

(** X12: on a branch, and without the detailed environment asked for,
    [tag_code_version] returns the content of the file of the branch that
    [HEAD] names, without the white space around it; it logs nothing and
    changes nothing. *)
Theorem tag_code_version_reads_branch_head
    (tag : string) (push_to : option string) (w : World)
    (head tip : FileData) (ref_name : string) :
  environ w !! "VIRAL_NGS_METADATA_DETAILED_ENV" = None ->
  files w !! git_path w "HEAD" = Some head ->
  Py.startswith "ref:" (Py.strip (content head)) = true ->
  Py.split (Py.strip (content head)) !! 1%nat = Some ref_name ->
  files w !! git_path w ref_name = Some tip ->
  tag_code_version tag push_to w = (Ok (Py.strip (content tip)), w).
Proof.
  intros Hd Hhead Href Hname Htip.
  rewrite tag_code_version_plain by exact Hd.
  now rewrite read_head_hash_run, Hhead, Href, Hname, Htip.
Qed.

Lemma tag_code_version_reads_branch_head_witness :
  tag_code_version "cmd_step1" None clean_checkout = (Ok "abc123", clean_checkout).
Proof.
  apply (tag_code_version_reads_branch_head "cmd_step1" None clean_checkout
           (mkFileData ("ref: refs/heads/master" +:+ newline) 1)
           (mkFileData ("abc123" +:+ newline) 2) "refs/heads/master");
    vm_compute; reflexivity.
Defined.

(** X13: without a [HEAD] file, or with a [HEAD] that names no branch (a
    detached one, which holds the commit itself), and without the detailed
    environment asked for, the code hash is the empty string, and no warning
    is logged. *)
Theorem tag_code_version_without_branch
    (tag : string) (push_to : option string) (w : World) :
  environ w !! "VIRAL_NGS_METADATA_DETAILED_ENV" = None ->
  (files w !! git_path w "HEAD" = None \/
   exists head, files w !! git_path w "HEAD" = Some head /\
                Py.startswith "ref:" (Py.strip (content head)) = false) ->
  tag_code_version tag push_to w = (Ok "", w).
Proof.
  intros Hd Hhead. rewrite tag_code_version_plain by exact Hd.
  rewrite read_head_hash_run.
  destruct Hhead as [-> | (head & -> & ->)]; reflexivity.
Qed.

Lemma tag_code_version_without_branch_witness :
  content <$> files detached_checkout !! git_path detached_checkout "HEAD"
    = Some ("abc123" +:+ newline) /\
  tag_code_version "cmd_step1" None detached_checkout = (Ok "", detached_checkout).
Proof.
  split; [vm_compute; reflexivity|].
  apply tag_code_version_without_branch; [vm_compute; reflexivity|].
  right. exists (mkFileData ("abc123" +:+ newline) 1). split; vm_compute; reflexivity.
Defined.

(** X14: when [HEAD] names a branch but the name is missing, or the branch
    has no file of its own, the error is logged as a warning and the code
    hash is the empty string. *)
Theorem tag_code_version_unreadable_branch
    (tag : string) (push_to : option string) (w : World) (head : FileData) :
  environ w !! "VIRAL_NGS_METADATA_DETAILED_ENV" = None ->
  files w !! git_path w "HEAD" = Some head ->
  Py.startswith "ref:" (Py.strip (content head)) = true ->
  (Py.split (Py.strip (content head)) !! 1%nat = None ->
   tag_code_version tag push_to w =
     (Ok "", set_log (log w ++ [LogWarning IndexError]) w)) /\
  (forall ref_name,
      Py.split (Py.strip (content head)) !! 1%nat = Some ref_name ->
      files w !! git_path w ref_name = None ->
      tag_code_version tag push_to w =
        (Ok "", set_log (log w ++ [LogWarning (IOError (git_path w ref_name))]) w)).
Proof.
  intros Hd Hhead Href. split.
  - intros Hname. rewrite tag_code_version_plain by exact Hd.
    now rewrite read_head_hash_run, Hhead, Href, Hname.
  - intros ref_name Hname Htip. rewrite tag_code_version_plain by exact Hd.
    now rewrite read_head_hash_run, Hhead, Href, Hname, Htip.
Qed.

Lemma tag_code_version_unreadable_branch_witness :
  tag_code_version "cmd_step1" None packed_checkout =
    (Ok "", set_log [LogWarning (IOError "/opt/viral-ngs/.git/refs/heads/master")]
                    packed_checkout).
Proof.
  refine (proj2 (tag_code_version_unreadable_branch "cmd_step1" None packed_checkout
                   (mkFileData ("ref: refs/heads/master" +:+ newline) 1) _ _ _)
                "refs/heads/master" _ _);
    vm_compute; reflexivity.
Defined.

(** X15: without the detailed environment asked for, the tag and the
    repository to push to play no part in [tag_code_version]. *)
Theorem tag_code_version_ignores_tag
    (tag tag' : string) (push_to push_to' : option string) (w : World) :
  environ w !! "VIRAL_NGS_METADATA_DETAILED_ENV" = None ->
  tag_code_version tag push_to w = tag_code_version tag' push_to' w.
Proof. intros Hd. now rewrite !tag_code_version_plain by exact Hd. Qed.

Lemma tag_code_version_ignores_tag_witness :
  tag_code_version "cmd_step1" (Some "/md/code_repo") clean_checkout =
  tag_code_version "" None clean_checkout.
Proof.
  apply tag_code_version_ignores_tag. vm_compute. reflexivity.
Defined.

(** ** [save_dirty_repo] *)

(** X16: [save_dirty_repo] gives back the hash it was given when the work
    tree is clean ([git stash create] prints nothing), and the hash of the
    stash otherwise; but with a tag and a repository to push to it raises
    [NameError] instead. It comes back to the directory it was called in. *)
Theorem save_dirty_repo_cases
    (code_hash tag : string) (push_to : option string) (w : World) :
  (save_dirty_repo code_hash tag push_to w).1 =
    match shell w "git stash create" with
    | Ok (String c s) =>
        if truthy (VStr tag) && truthy_text push_to then Raise (NameError "tagb")
        else Ok (String c s)
    | _ => Ok code_hash
    end /\
  cwd (save_dirty_repo code_hash tag push_to w).2 = cwd w.
Proof.
  split.
  - unfold save_dirty_repo, pushd_popd, _shell_cmd_unchecked, bind, gets, ret, raise.
    cbv beta iota. world_simpl.
    destruct (shell w "git stash create") as [[|c s]|e]; cbn; try reflexivity.
    destruct (negb (String.eqb tag "")); cbn; [|reflexivity].
    destruct (shell w _); cbn; destruct (truthy_text push_to); reflexivity.
  - pose proof (quiet_save_dirty_repo code_hash tag push_to w) as H.
    apply same_but_records_fields in H. tauto.
Qed.

(** ** Failures of recording *)

Lemma recording_raises_drops_record
    (cmd_main : CmdMain) (command : Namespace -> M (list PyVal))
    (args : Namespace) (w : World) (e : Exc) (wr : World) :
  let r := (command (replace_file_args args) (world_at_yield cmd_main args w)).1 in
  let wy := (command (replace_file_args args) (world_at_yield cmd_main args w)).2 in
  captured r = true -> tracking_enabled wy = true -> enclosing_at w = [] ->
  recording cmd_main args w (cmd_result_of r) (exception_text_of r) wy = (Raise e, wr) ->
  (call_cmd cmd_main command args w).1 = delivered r /\
  db (call_cmd cmd_main command args w).2 = db wy /\
  log (call_cmd cmd_main command args w).2 = log wr ++ [LogWarning e].
Proof.
  cbv zeta. intros Hc Ht He Hrec.
  destruct (call_cmd_cases cmd_main command args w) as [Hres Hdb]. cbv zeta in Hdb.
  rewrite Hc, Ht, He, Hrec in Hdb. split; [exact Hres | exact Hdb].
Qed.

(** X17: when the detailed environment is asked for and [conda env export]
    fails, an outermost step with tracking enabled is not recorded: the
    caller gets the command's outcome as [unpack_outcome] delivers it (the
    result, or the exception, a [StopIteration] as a [RuntimeError]), the
    store is unchanged, and the log ends with a warning. *)
Theorem failing_conda_export_drops_record
    (cmd_main : CmdMain) (command : Namespace -> M (list PyVal))
    (args : Namespace) (w : World) (e : Exc) :
  let r := (command (replace_file_args args) (world_at_yield cmd_main args w)).1 in
  let wy := (command (replace_file_args args) (world_at_yield cmd_main args w)).2 in
  captured r = true -> tracking_enabled wy = true -> enclosing_at w = [] ->
  is_Some (environ wy !! "VIRAL_NGS_METADATA_DETAILED_ENV") ->
  shell wy "conda env export" = Raise e ->
  (call_cmd cmd_main command args w).1 = delivered r /\
  db (call_cmd cmd_main command args w).2 = db wy /\
  exists l e', log (call_cmd cmd_main command args w).2 = l ++ [LogWarning e'].
Proof.
  cbv zeta. intros Hc Ht He [x Hd] Hconda.
  set (r := (command (replace_file_args args) (world_at_yield cmd_main args w)).1) in *.
  set (wy := (command (replace_file_args args) (world_at_yield cmd_main args w)).2) in *.
  destruct (recording cmd_main args w (cmd_result_of r) (exception_text_of r) wy)
    as [[[]|e'] wr] eqn:Hrec.
  - exfalso. unfold recording in Hrec. rewrite record_step_run in Hrec. cbv zeta in Hrec.
    match type of Hrec with context [gather_version_info ?s ?w0] =>
      pose proof (quiet_gather_version_info s w0) as H2;
      destruct (gather_version_info s w0) as [[vi|e2] w2] end; simpl in H2; [|discriminate].
    apply same_but_records_fields in H2 as (Henv & _ & _ & _ & _ & _ & Hsh & _).
    rewrite gather_run_env_run in Hrec.
    destruct (cpu_count w2); [|discriminate].
    rewrite Henv in Hrec. cbn [environ set_log] in Hrec. rewrite Hd in Hrec.
    rewrite Hsh in Hrec. cbn [shell set_log] in Hrec. rewrite Hconda in Hrec.
    discriminate.
  - destruct (recording_raises_drops_record cmd_main command args w e' wr Hc Ht He Hrec)
      as (Hres & Hdb & Hlog).
    split; [exact Hres|]. split; [exact Hdb|]. eauto.
Qed.

Lemma failing_conda_export_drops_record_witness :
  (call_cmd align_main align_ok align_args lab_without_conda).1 = Ok [VStr "done"] /\
  db (call_cmd align_main align_ok align_args lab_without_conda).2 = [].
Proof.
  destruct (failing_conda_export_drops_record align_main align_ok align_args
              lab_without_conda conda_missing) as (Hres & Hdb & _);
    try reflexivity.
  - vm_compute. eauto.
  - split; [exact Hres | exact Hdb].
Defined.

(** X18: when the version of the project cannot be obtained, an outermost
    step with tracking enabled is not recorded: the caller gets the
    command's outcome as [unpack_outcome] delivers it (the result, or the
    exception, a [StopIteration] as a [RuntimeError]), the store is
    unchanged and that error is the last entry of the log, as a warning. *)
Theorem failing_get_version_drops_record
    (cmd_main : CmdMain) (command : Namespace -> M (list PyVal))
    (args : Namespace) (w : World) (e : Exc) :
  let r := (command (replace_file_args args) (world_at_yield cmd_main args w)).1 in
  let wy := (command (replace_file_args args) (world_at_yield cmd_main args w)).2 in
  captured r = true -> tracking_enabled wy = true -> enclosing_at w = [] ->
  version wy = Raise e ->
  (call_cmd cmd_main command args w).1 = delivered r /\
  db (call_cmd cmd_main command args w).2 = db wy /\
  exists l, log (call_cmd cmd_main command args w).2 = l ++ [LogWarning e].
Proof.
  cbv zeta. intros Hc Ht He Hv.
  set (r := (command (replace_file_args args) (world_at_yield cmd_main args w)).1) in *.
  set (wy := (command (replace_file_args args) (world_at_yield cmd_main args w)).2) in *.
  assert (exists wr, recording cmd_main args w (cmd_result_of r) (exception_text_of r) wy
                     = (Raise e, wr)) as [wr Hrec].
  { unfold recording. rewrite record_step_run. cbv zeta.
    rewrite gather_version_info_run. cbv zeta.
    match goal with |- context [tag_code_version ?t ?p ?w0] =>
      pose proof (quiet_tag_code_version t p w0) as H2;
      destruct (tag_code_version_never_raises t p w0) as (h & w2 & Htag);
      rewrite Htag in *
    end.
    simpl in H2. apply same_but_records_fields in H2.
    destruct H2 as (_ & _ & _ & _ & _ & _ & _ & _ & _ & _ & _ & _ & Hver & _).
    rewrite Hver. cbn [version set_log]. rewrite Hv. eauto. }
  destruct (recording_raises_drops_record cmd_main command args w e wr Hc Ht He Hrec)
    as (Hres & Hdb & Hlog).
  split; [exact Hres|]. split; [exact Hdb|]. eauto.
Qed.

Lemma failing_get_version_drops_record_witness :
  (call_cmd align_main align_ok align_args lab_without_version).1 = Ok [VStr "done"] /\
  db (call_cmd align_main align_ok align_args lab_without_version).2 = [] /\
  exists l, log (call_cmd align_main align_ok align_args lab_without_version).2 =
            l ++ [LogWarning version_unknown].
Proof.
  apply (failing_get_version_drops_record align_main align_ok align_args
           lab_without_version version_unknown); reflexivity.
Defined.

(** ** User metadata and the command, as recorded *)

(** X19: the user metadata of a stored record. A key of the command-line
    metadata has the value of the last [--metadata] pair that names it, else
    the value of the environment variable of that name under the prefix as
    the environment was when the command had finished; the metadata of the
    command is the [__metadata__] entry of the first result of the hook when
    that is a mapping, and empty otherwise. *)
Theorem stored_user_metadata
    (cmd_main : CmdMain) (command : Namespace -> M (list PyVal))
    (args : Namespace) (w : World) (rec : StepData Ser) :
  let r := (command (replace_file_args args) (world_at_yield cmd_main args w)).1 in
  let wy := (command (replace_file_args args) (world_at_yield cmd_main args w)).2 in
  db (call_cmd cmd_main command args w).2 = db wy ++ [rec] ->
  exists st : Step Ser,
    step rec = Some st /\
    (forall k,
        metadata_from_cmd_line st !! k =
        match last_value k (default [] (metadata args)) with
        | Some v => Some v
        | None => environ wy !! (METADATA_VALUE_PREFIX +:+ k)
        end) /\
    metadata_from_cmd_return st =
      match r with
      | Ok (VDict items :: _) => dict_get "__metadata__" items (VDict [])
      | _ => VDict []
      end.
Proof.
  cbv zeta. intros Hrec. apply recorded_inv in Hrec as (w3 & vi & re & _ & ->).
  eexists. split; [reflexivity|].
  cbn [metadata_from_cmd_line metadata_from_cmd_return stored_step assembled_step]. split.
  - intros k. unfold cmd_line_metadata.
    rewrite dict_update_lookup, dict_of_pairs_lookup, metadata_from_environ_lookup.
    destruct (metadata args) as [[|p ps]|]; reflexivity.
  - destruct (command _ _).1 as [[|[] ?]|]; reflexivity.
Qed.

Lemma stored_user_metadata_witness :
  exists (rec : StepData Ser) (st : Step Ser),
    db (call_cmd align_main align_with_metadata align_args (lab ∅ true None)).2 = [rec] /\
    step rec = Some st /\
    metadata_from_cmd_line st !! "aligner" = Some "novoalign" /\
    metadata_from_cmd_line st !! "sample" = Some "s1" /\
    metadata_from_cmd_return st = VDict [("reads", VInt 42)].
Proof.
  destruct (db (call_cmd align_main align_with_metadata align_args (lab ∅ true None)).2)
    as [|rec [|]] eqn:Hdb; try (vm_compute in Hdb; discriminate).
  destruct (stored_user_metadata align_main align_with_metadata align_args
              (lab ∅ true None) rec) as (st & Hst & Hline & Hret).
  - rewrite Hdb. vm_compute. reflexivity.
  - exists rec, st. split; [reflexivity|]. split; [exact Hst|].
    rewrite !Hline, Hret. repeat split; vm_compute; reflexivity.
Defined.

(** X20: a stored record names the command: the module of the function that
    implements it, and the [command] attribute of the arguments, or the
    name of that function when there is no such attribute. *)
Theorem stored_command_name
    (cmd_main : CmdMain) (command : Namespace -> M (list PyVal))
    (given : Namespace) (w : World) (rec : StepData Ser) :
  db (call_cmd cmd_main command given w).2 =
    db (command (replace_file_args given) (world_at_yield cmd_main given w)).2 ++ [rec] ->
  exists st : Step Ser,
    step rec = Some st /\
    cmd_module st = main_module cmd_main /\
    (attrs given !! "command" = None -> cmd_name st = SPlain (PStr (main_name cmd_main))) /\
    (forall p, attrs given !! "command" = Some (AVal p) -> cmd_name st = SPlain p).
Proof.
  intros Hrec. apply recorded_inv in Hrec as (w3 & vi & re & _ & ->).
  eexists. split; [reflexivity|].
  cbn [cmd_module cmd_name stored_step assembled_step]. unfold cmd_name_at.
  split; [reflexivity|]. split.
  - intros ->. reflexivity.
  - intros p ->. reflexivity.
Qed.

Lemma stored_command_name_witness :
  exists st : Step Ser,
    step (parsed_record (lab ∅ true None) (Ok [VStr "done"])) = Some st /\
    cmd_module st = "read_utils" /\
    cmd_name st = SPlain (PStr "align_bam").
Proof.
  destruct (stored_command_name align_main align_ok parsed_args (lab ∅ true None)
              (parsed_record (lab ∅ true None) (Ok [VStr "done"])))
    as (st & Hst & Hmod & _ & Hname).
  - vm_compute. reflexivity.
  - exists st. split; [exact Hst|]. split; [exact Hmod|].
    apply Hname. vm_compute. reflexivity.
Defined.

(** ** The environment after the call *)

Lemma quiet_decision (cmd_main : CmdMain) (args : Namespace) (w : World)
    (cmd_result : PyVal) (cmd_exception_str : option string) :
  quiet (decision cmd_main args w cmd_result cmd_exception_str).
Proof.
  intros wy. rewrite decision_run.
  destruct (tracking_enabled wy && is_empty (enclosing_at w)); [|reflexivity].
  unfold recording.
  match goal with |- context [record_step ?a ?b ?c ?d ?e ?f ?g ?h ?i ?j ?k] =>
    pose proof (quiet_record_step a b c d e f g h i j k) as Hq;
    destruct (record_step a b c d e f g h i j k) as [[[]|e0] wr]
  end; simpl in *; [exact Hq|].
  exact (same_but_records_trans _ _ _ (same_but_records_set_log _ wr) Hq).
Qed.

(** X21: the call leaves the environment as the command left it, except for
    [VIRAL_NGS_METADATA_STEPS_RUNNING], which is as it was when the call
    started, whatever the outcome. In particular the call sets no run id. *)
Theorem environment_after_call
    (cmd_main : CmdMain) (command : Namespace -> M (list PyVal))
    (args : Namespace) (w : World) (k : string) :
  let wy := (command (replace_file_args args) (world_at_yield cmd_main args w)).2 in
  environ (call_cmd cmd_main command args w).2 !! k =
  if decide (k = "VIRAL_NGS_METADATA_STEPS_RUNNING")
  then environ w !! k
  else environ wy !! k.
Proof.
  cbv zeta. rewrite call_cmd_run.
  destruct (command (replace_file_args args) (world_at_yield cmd_main args w)) as [r wy].
  cbn [snd].
  assert (environ (if captured r
                   then (decision cmd_main args w (cmd_result_of r) (exception_text_of r) wy).2
                   else wy) = environ wy) as Henv.
  { destruct (captured r); [|reflexivity].
    pose proof (quiet_decision cmd_main args w (cmd_result_of r) (exception_text_of r) wy) as H.
    apply same_but_records_fields in H. tauto. }
  unfold leave. world_simpl. rewrite Henv.
  destruct (decide (k = "VIRAL_NGS_METADATA_STEPS_RUNNING")) as [->|Hk].
  - destruct (environ w !! "VIRAL_NGS_METADATA_STEPS_RUNNING").
    + apply lookup_insert_eq.
    + apply lookup_delete_eq.
  - destruct (environ w !! "VIRAL_NGS_METADATA_STEPS_RUNNING").
    + now apply lookup_insert_ne.
    + now apply lookup_delete_ne.
Qed.

(** ** The environment snapshot of a stored record *)

(** X22: the run environment of a stored record is read when the command
    has finished: platform, number of CPUs, host, user and working
    directory; [metadata_dir] is always empty; the export of the conda
    environment is there exactly when the detailed environment was asked
    for, and empty otherwise; and of the environment variables only those of
    the fixed list are copied, each with its value. *)
Theorem stored_run_env
    (cmd_main : CmdMain) (command : Namespace -> M (list PyVal))
    (args : Namespace) (w : World) (rec : StepData Ser) :
  let wy := (command (replace_file_args args) (world_at_yield cmd_main args w)).2 in
  db (call_cmd cmd_main command args w).2 = db wy ++ [rec] ->
  exists st : Step Ser,
    step rec = Some st /\
    run_env_metadata_dir (run_env st) = "" /\
    platform (run_env st) = sys_platform wy /\
    cpu_count wy = Ok (cpus (run_env st)) /\
    host (run_env st) = fqdn wy /\
    run_env_user (run_env st) = user wy /\
    run_env_cwd (run_env st) = cwd wy /\
    got_detailed_env (run_env st) =
      bool_decide (is_Some (environ wy !! "VIRAL_NGS_METADATA_DETAILED_ENV")) /\
    (if got_detailed_env (run_env st)
     then shell wy "conda env export" = Ok (conda_env (run_env st))
     else conda_env (run_env st) = "") /\
    (forall k v, env_vars (run_env st) !! k = Some v <->
                 k ∈ env_vars_to_save /\ environ wy !! k = Some v).
Proof.
  cbv zeta. intros Hrec.
  apply recorded_inv_strong in Hrec as (_ & _ & _ & w2 & w3 & vi & re & E2 & E3 & _ & ->).
  match type of E2 with gather_version_info ?s ?w0 = _ =>
    pose proof (quiet_gather_version_info s w0) as H2 end.
  rewrite E2 in H2. simpl in H2.
  apply same_but_records_fields in H2
    as (Henv & Hcwd & Huser & _ & _ & _ & Hsh & Hplat & Hfqdn & Hcpu & _).
  cbn [environ cwd user shell sys_platform fqdn cpu_count set_log] in *.
  eexists. split; [reflexivity|]. cbn [run_env stored_step assembled_step].
  rewrite gather_run_env_run in E3. rewrite Hcpu, Henv, Hsh, Hplat, Hfqdn, Huser, Hcwd in E3.
  set (wy := (command (replace_file_args args) (world_at_yield cmd_main args w)).2) in *.
  assert (forall k v, dict_subset (environ wy) env_vars_to_save !! k = Some v <->
                      k ∈ env_vars_to_save /\ environ wy !! k = Some v) as Hvars.
  { intros k v. unfold dict_subset. rewrite map_lookup_filter_Some. simpl. tauto. }
  destruct (cpu_count wy) as [n|]; [|discriminate].
  destruct (environ wy !! "VIRAL_NGS_METADATA_DETAILED_ENV") as [x|].
  - destruct (shell wy "conda env export") as [conda|]; [|discriminate].
    injection E3 as <- _. cbn. repeat (split; [reflexivity|]). exact Hvars.
  - injection E3 as <- _. cbn. repeat (split; [reflexivity|]). exact Hvars.
Qed.

Lemma stored_run_env_witness :
  exists (rec : StepData Ser) (st : Step Ser),
    db (call_cmd align_main align_ok align_args
          (lab (<["TRAVIS_JOB_ID" := "17"]> (<["SECRET" := "x"]> ∅)) true None)).2 = [rec] /\
    step rec = Some st /\
    env_vars (run_env st) !! "TRAVIS_JOB_ID" = Some "17" /\
    env_vars (run_env st) !! "SECRET" = None /\
    conda_env (run_env st) = "".
Proof.
  destruct (db (call_cmd align_main align_ok align_args
                  (lab (<["TRAVIS_JOB_ID" := "17"]> (<["SECRET" := "x"]> ∅)) true None)).2)
    as [|rec [|]] eqn:Hdb; try (vm_compute in Hdb; discriminate).
  destruct (stored_run_env align_main align_ok align_args
              (lab (<["TRAVIS_JOB_ID" := "17"]> (<["SECRET" := "x"]> ∅)) true None) rec)
    as (st & Hst & _ & _ & _ & _ & _ & _ & Hdet & Hconda & Hvars).
  - rewrite Hdb. vm_compute. reflexivity.
  - exists rec, st. split; [reflexivity|]. split; [exact Hst|]. split; [|split].
    + apply Hvars. split; [|vm_compute; reflexivity].
      apply list_elem_of_In. simpl. tauto.
    + destruct (env_vars (run_env st) !! "SECRET") as [v|] eqn:Hs; [|reflexivity].
      apply Hvars in Hs as [Hin _]. apply list_elem_of_In in Hin. simpl in Hin.
      exfalso. repeat (destruct Hin as [Hin|Hin]; [discriminate Hin|]). exact Hin.
    + rewrite Hdet in Hconda. exact Hconda.
Defined.

(** X23: the version information of a stored record: the version and the
    path of the project as they were when the command had finished, and as
    code hash what [tag_code_version] returned for the tag [cmd_] followed by
    the step id, with the directory [code_repo] of the metadata directory to
    push to when there is such a directory. *)
Theorem stored_version_info
    (cmd_main : CmdMain) (command : Namespace -> M (list PyVal))
    (args : Namespace) (w : World) (rec : StepData Ser) :
  let wy := (command (replace_file_args args) (world_at_yield cmd_main args w)).2 in
  db (call_cmd cmd_main command args w).2 = db wy ++ [rec] ->
  exists (st : Step Ser) (w0 : World),
    step rec = Some st /\
    same_but_records w0 wy /\
    version wy = Ok (viral_ngs_version (version_info st)) /\
    viral_ngs_path (version_info st) = project_path wy /\
    viral_ngs_path_real (version_info st) = realpath wy (project_path wy) /\
    (tag_code_version ("cmd_" +:+ step_id st)
       (if bool_decide (Py.path_join (metadata_dir wy) "code_repo" ∈ dirs wy)
        then Some (Py.path_join (metadata_dir wy) "code_repo") else None) w0).1
      = Ok (code_hash (version_info st)).
Proof.
  cbv zeta. intros Hrec.
  apply recorded_inv_strong in Hrec as (_ & _ & _ & w2 & w3 & vi & re & E2 & _ & _ & ->).
  rewrite gather_version_info_run in E2. cbv zeta in E2.
  cbn [metadata_dir dirs set_log] in E2.
  match type of E2 with context [tag_code_version ?t ?p ?w0] =>
    pose proof (quiet_tag_code_version t p w0) as H2;
    destruct (tag_code_version t p w0) as [[h|e] w2'] eqn:Htag;
    [|discriminate]; eexists _, w0
  end.
  simpl in H2. apply same_but_records_fields in H2.
  destruct H2 as (_ & _ & _ & _ & _ & _ & _ & _ & _ & _ & Hpath & Hreal & Hver & _).
  cbn [project_path realpath version set_log] in *.
  rewrite Hver, Hpath, Hreal in E2.
  destruct (version _) as [v|]; [|discriminate]. injection E2 as <- _.
  split; [reflexivity|]. split; [apply same_but_records_set_log|].
  cbn [version_info stored_step assembled_step step_id viral_ngs_version viral_ngs_path
       viral_ngs_path_real code_hash].
  repeat split. now rewrite Htag.
Qed.

Lemma stored_version_info_witness :
  exists (rec : StepData Ser) (st : Step Ser),
    db (call_cmd align_main align_ok align_args (lab ∅ true None)).2 = [rec] /\
    step rec = Some st /\
    viral_ngs_version (version_info st) = "v1.0" /\
    viral_ngs_path (version_info st) = "/opt/viral-ngs".
Proof.
  destruct (db (call_cmd align_main align_ok align_args (lab ∅ true None)).2)
    as [|rec [|]] eqn:Hdb; try (vm_compute in Hdb; discriminate).
  destruct (stored_version_info align_main align_ok align_args (lab ∅ true None) rec)
    as (st & w0 & Hst & _ & Hver & Hpath & _).
  - rewrite Hdb. vm_compute. reflexivity.
  - exists rec, st. split; [reflexivity|]. split; [exact Hst|]. split.
    + match type of Hver with ?a = _ =>
        assert (a = Ok "v1.0") as Hv by (vm_compute; reflexivity) end.
      congruence.
    + rewrite Hpath. vm_compute. reflexivity.
Defined.

(** ** The [--metadata] option *)

Lemma configure_times_added (n : nat) (parser : Parser) :
  metadata_arg_added parser = true -> configure_times n parser = Ok parser.
Proof.
  induction n as [|n IH]; intros Hp; [reflexivity|].
  cbn [configure_times]. unfold cmd_configure_parser, add_metadata_arg.
  rewrite Hp. cbn [negb]. now apply IH.
Qed.

(** X24: configuring a parser that has no [--metadata] option any number of
    times, once at least, adds that option exactly once, after the options
    the parser had, and raises nothing. *)
Theorem configure_parser_adds_option_once (parser : Parser) (n : nat) :
  metadata_arg_added parser = false ->
  existsb (String.eqb "--metadata") (map option_string (parser_options parser)) = false ->
  configure_times (S n) parser =
    Ok (mkParser (parser_options parser ++ [metadata_option]) true).
Proof.
  intros Hflag Hfree. cbn [configure_times].
  unfold cmd_configure_parser at 1. unfold add_metadata_arg, add_argument.
  rewrite Hflag. cbn [negb option_string metadata_option]. rewrite Hfree.
  cbn [parser_options metadata_arg_added].
  now apply configure_times_added.
Qed.

Lemma configure_parser_adds_option_once_witness :
  configure_times 3 sample_parser =
    Ok (mkParser [mkOptionSpec "--threads" 1 ["N"] "store" "number of threads";
                  metadata_option] true).
Proof.
  apply (configure_parser_adds_option_once sample_parser 2); reflexivity.
Defined.

